(** * Sabor a mi Tierra backend: authorization core

    A shallow embedding of the identity / authorization code of the
    backend (session-backed authentication, permission resolution, the
    auth service and the error handler), with the properties of the
    design document stated and proved over it.

    Conventions of the embedding:
    - JavaScript strings are [string]; an optional or nullable string
      ([string | null], [scope?: string]) is [option string].
    - [Date] values are milliseconds since the epoch, in [Z].
    - Database identifiers (Prisma generated ids) are [nat], allocated
      from a counter kept in the store, so an identifier is never handed
      out twice.
    - A Prisma table is the list of its rows.
    - Code that throws returns [Err e]; state written before the throw
      is kept (there is no rollback outside [$transaction]). *)

From Stdlib Require Import List String Ascii ZArith Bool Arith Lia.
Import ListNotations.

Local Open Scope string_scope.
Local Open Scope list_scope.

(* ================================================================== *)
(** * JavaScript primitives used by the code *)

Module Js.

(** Truthiness of an optional string: [undefined], [null] and the
    empty string are falsy, every other string is truthy. *)
Definition truthy (v : option string) : bool :=
  match v with
  | Some s => negb (s =? "")
  | None => false
  end.

(** [a === b] where [a : string | null] and [b : string | undefined].
    Two strings are compared by content; [null === undefined] is
    false, and so is a string against either of them. *)
Definition strict_eq (a b : option string) : bool :=
  match a, b with
  | Some x, Some y => x =? y
  | _, _ => false
  end.

(** [String.prototype.toLowerCase] on the ASCII range; other code
    units are left as they are. *)
Definition lower_ascii (c : ascii) : ascii :=
  let n := nat_of_ascii c in
  if (65 <=? n)%nat && (n <=? 90)%nat then ascii_of_nat (n + 32) else c.

Fixpoint toLowerCase (s : string) : string :=
  match s with
  | EmptyString => EmptyString
  | String c r => String (lower_ascii c) (toLowerCase r)
  end.

End Js.

(* ================================================================== *)
(** * shared/middleware/error-handler.ts: the error classes *)

Module Errors.

(** [AppError]: status code, machine code and message ([details] is
    only set by [ValidationError], which this core never raises). *)
Record AppError := mkAppError {
  statusCode : Z;
  code : string;
  message : string
}.

Definition UnauthorizedError (msg : string) : AppError :=
  mkAppError 401 "UNAUTHORIZED" msg.

Definition ForbiddenError (msg : string) : AppError :=
  mkAppError 403 "FORBIDDEN" msg.

Definition NotFoundError (resource : string) : AppError :=
  mkAppError 404 "NOT_FOUND" (resource ++ " not found")%string.

Definition ConflictError (msg : string) : AppError :=
  mkAppError 409 "CONFLICT" msg.

(** What can reach the error handler: a Zod validation error, one of
    the application errors, or any other [Error] with its message. *)
Inductive Error :=
| ZodError
| App (e : AppError)
| Other (msg : string).

(** Outcome of code that may throw. *)
Inductive Result (A : Type) :=
| Ok (a : A)
| Err (e : Error).
Arguments Ok {A} a.
Arguments Err {A} e.

Definition throw {A} (e : AppError) : Result A := Err (App e).

(** The taxonomy of the design: a failure is Unauthenticated when it
    carries status 401 and Forbidden when it carries status 403. *)
Definition isUnauthenticated {A} (r : Result A) : bool :=
  match r with
  | Err (App e) => (statusCode e =? 401)%Z
  | _ => false
  end.

Definition isForbidden {A} (r : Result A) : bool :=
  match r with
  | Err (App e) => (statusCode e =? 403)%Z
  | _ => false
  end.

End Errors.
Import Errors.

(* ================================================================== *)
(** * shared/types/index.ts *)

Module Types.

(** Prisma [Permission] row, as far as the resolver reads it. *)
Record Permission := mkPermission {
  permission_id : nat;
  permission_name : string
}.

(** Prisma [Role] row. *)
Record Role := mkRole {
  role_id : nat;
  role_name : string;
  role_domain : string;
  role_isSystem : bool
}.

(** One element of [AuthenticatedUser.roles[i].permissions]. *)
Record GrantedPermission := mkGranted {
  perm_permission : Permission;
  perm_scope : option string
}.

(** One element of [AuthenticatedUser.roles]. *)
Record HeldRole := mkHeldRole {
  ra_role : Role;
  ra_organizationId : option string;
  ra_permissions : list GrantedPermission
}.

Record AuthenticatedUser := mkAuthUser {
  au_id : nat;
  au_email : string;
  au_sessionId : nat;
  au_roles : list HeldRole
}.

Record PermissionCheck := mkCheck {
  check_permission : string;
  check_scope : option string;
  check_organizationId : option string
}.

End Types.
Import Types.

(* ================================================================== *)
(** * shared/middleware/auth.ts: requirePermission and requireRole *)

Module Gate.

(** The innermost callback of [requirePermission]:
    [permissionMatch && scopeMatch]. *)
Definition permMatches (check : PermissionCheck) (perm : GrantedPermission) : bool :=
  let permissionMatch := permission_name (perm_permission perm) =? check_permission check in
  let scopeMatch := negb (Js.truthy (check_scope check))
                    || Js.strict_eq (perm_scope perm) (check_scope check) in
  permissionMatch && scopeMatch.

(** The callback over [req.user.roles]. *)
Definition roleSatisfies (check : PermissionCheck) (roleAssignment : HeldRole) : bool :=
  if Js.truthy (check_organizationId check)
     && negb (Js.strict_eq (ra_organizationId roleAssignment) (check_organizationId check))
  then false
  else existsb (permMatches check) (ra_permissions roleAssignment).

(** [checks.some(check => req.user.roles.some(...))]. *)
Definition hasPermission (user : AuthenticatedUser) (checks : list PermissionCheck) : bool :=
  existsb (fun check => existsb (roleSatisfies check) (au_roles user)) checks.

(** [requirePermission(...checks)] applied to a request whose
    [req.user] is [user]; [Ok tt] stands for the call of [next()]. *)
Definition requirePermission (checks : list PermissionCheck)
           (user : option AuthenticatedUser) : Result unit :=
  match user with
  | None => throw (UnauthorizedError "Authentication required")
  | Some u =>
      if hasPermission u checks then Ok tt
      else throw (ForbiddenError "Insufficient permissions")
  end.

(** [requireRole(...roleNames)]. *)
Definition requireRole (roleNames : list string)
           (user : option AuthenticatedUser) : Result unit :=
  match user with
  | None => throw (UnauthorizedError "Authentication required")
  | Some u =>
      if existsb (fun ra => existsb (String.eqb (role_name (ra_role ra))) roleNames)
                 (au_roles u)
      then Ok tt
      else throw (ForbiddenError "Insufficient role")
  end.

(** [verifyCsrf]: the [x-csrf-token] header against [req.csrfToken]
    (which is [undefined] when [authenticate] did not run). *)
Definition verifyCsrf (csrfHeader : option string) (csrfToken : option string)
  : Result unit :=
  if negb (Js.truthy csrfHeader)
     || negb (match csrfHeader, csrfToken with
              | Some h, Some t => h =? t
              | None, None => true
              | _, _ => false
              end)
  then throw (ForbiddenError "Invalid CSRF token")
  else Ok tt.

End Gate.

(* ================================================================== *)
(** * The persistence store (Prisma client)

    The tables are reconstructed from the queries the code makes, each
    row holding the fields the code reads or writes; relations that a
    query includes are stored with the row. *)

Module Store.

Record User := mkUser {
  user_id : nat;
  user_email : string;
  user_passwordHash : string;
  user_isActive : bool;
  user_lastLoginAt : option Z
}.

Record Profile := mkProfile {
  profile_id : nat;
  profile_userId : nat;
  profile_firstName : option string;
  profile_lastName : option string
}.

Record Session := mkSession {
  session_id : nat;
  session_userId : nat;
  session_token : string;
  session_csrfToken : string;
  session_userAgent : option string;
  session_ipAddress : option string;
  session_expiresAt : Z
}.

Record PermissionScope := mkScope {
  scope_id : nat;
  scope_name : string
}.

(** A [RolePermission] row with its [permission] and [scope]
    relations included. *)
Record RolePermission := mkRolePermission {
  rp_permission : Permission;
  rp_scope : option PermissionScope
}.

(** A [Role] row with its [permissions] relation included. *)
Record RoleRow := mkRoleRow {
  row_role : Role;
  row_permissions : list RolePermission
}.

Record UserRoleAssignment := mkAssignment {
  ura_userId : nat;
  ura_roleId : nat;
  ura_organizationId : option string
}.

Record AuditLog := mkAuditLog {
  audit_userId : option nat;
  audit_action : string;
  audit_resource : option string;
  audit_resourceId : option nat;
  audit_ipAddress : option string;
  audit_userAgent : option string
}.

Record Consent := mkConsent {
  consent_id : nat;
  consent_profileId : nat;
  consent_type : string;
  consent_granted : bool;
  consent_grantedAt : Z;
  consent_revokedAt : option Z;
  consent_version : string;
  consent_ipAddress : option string
}.

(** The body of one element of [PUT /sales-instances/:id/hours]. *)
Record HourInput := mkHourInput {
  dayOfWeek : Z;
  openTime : string;
  closeTime : string;
  isOpen : bool
}.

Record OperatingHour := mkOperatingHour {
  oh_id : nat;
  oh_salesInstanceId : string;
  oh_hour : HourInput
}.

Record Db := mkDb {
  users : list User;
  profiles : list Profile;
  sessions : list Session;
  roles : list RoleRow;
  roleAssignments : list UserRoleAssignment;
  auditLogs : list AuditLog;
  consents : list Consent;
  operatingHours : list OperatingHour;
  nextId : nat
}.

Definition emptyDb : Db := mkDb [] [] [] [] [] [] [] [] 0.

(** ** Record updates *)

Definition with_users (f : list User -> list User) (d : Db) : Db :=
  mkDb (f (users d)) (profiles d) (sessions d) (roles d) (roleAssignments d)
       (auditLogs d) (consents d) (operatingHours d) (nextId d).

Definition with_profiles (f : list Profile -> list Profile) (d : Db) : Db :=
  mkDb (users d) (f (profiles d)) (sessions d) (roles d) (roleAssignments d)
       (auditLogs d) (consents d) (operatingHours d) (nextId d).

Definition with_sessions (f : list Session -> list Session) (d : Db) : Db :=
  mkDb (users d) (profiles d) (f (sessions d)) (roles d) (roleAssignments d)
       (auditLogs d) (consents d) (operatingHours d) (nextId d).

Definition with_roleAssignments
           (f : list UserRoleAssignment -> list UserRoleAssignment) (d : Db) : Db :=
  mkDb (users d) (profiles d) (sessions d) (roles d) (f (roleAssignments d))
       (auditLogs d) (consents d) (operatingHours d) (nextId d).

Definition with_auditLogs (f : list AuditLog -> list AuditLog) (d : Db) : Db :=
  mkDb (users d) (profiles d) (sessions d) (roles d) (roleAssignments d)
       (f (auditLogs d)) (consents d) (operatingHours d) (nextId d).

Definition with_consents (f : list Consent -> list Consent) (d : Db) : Db :=
  mkDb (users d) (profiles d) (sessions d) (roles d) (roleAssignments d)
       (auditLogs d) (f (consents d)) (operatingHours d) (nextId d).

Definition with_operatingHours
           (f : list OperatingHour -> list OperatingHour) (d : Db) : Db :=
  mkDb (users d) (profiles d) (sessions d) (roles d) (roleAssignments d)
       (auditLogs d) (consents d) (f (operatingHours d)) (nextId d).

Definition with_nextId (n : nat) (d : Db) : Db :=
  mkDb (users d) (profiles d) (sessions d) (roles d) (roleAssignments d)
       (auditLogs d) (consents d) (operatingHours d) n.

(** ** Queries ([findUnique], [findMany]) *)

Definition user_findByEmail (email : string) (d : Db) : option User :=
  find (fun u => user_email u =? email) (users d).

Definition user_findById (id : nat) (d : Db) : option User :=
  find (fun u => (user_id u =? id)%nat) (users d).

Definition session_findById (id : nat) (d : Db) : option Session :=
  find (fun s => (session_id s =? id)%nat) (sessions d).

Definition role_findByName (name : string) (d : Db) : option RoleRow :=
  find (fun r => role_name (row_role r) =? name) (roles d).

Definition role_findById (id : nat) (d : Db) : option RoleRow :=
  find (fun r => (role_id (row_role r) =? id)%nat) (roles d).

Definition profile_findByUserId (uid : nat) (d : Db) : option Profile :=
  find (fun p => (profile_userId p =? uid)%nat) (profiles d).

Definition roleAssignments_ofUser (uid : nat) (d : Db) : list UserRoleAssignment :=
  filter (fun ra => (ura_userId ra =? uid)%nat) (roleAssignments d).

Definition operatingHours_of (salesInstanceId : string) (d : Db) : list OperatingHour :=
  filter (fun h => oh_salesInstanceId h =? salesInstanceId) (operatingHours d).

(** ** Write statements

    Each is the effect of one Prisma call when the store accepts it;
    a creating statement also returns the created row.  New rows take
    their identifier from [nextId]. *)

(** [prisma.user.create({data: {email, passwordHash, profile: {create:
    {firstName, lastName}}}})]: a nested write, one statement. *)
Definition user_createWithProfile (email passwordHash : string)
           (firstName lastName : option string) (d : Db) : Db * User :=
  let user := mkUser (nextId d) email passwordHash true None in
  let profile := mkProfile (S (nextId d)) (nextId d) firstName lastName in
  (with_nextId (S (S (nextId d)))
     (with_profiles (fun l => l ++ [profile])
        (with_users (fun l => l ++ [user]) d)),
   user).

(** [prisma.userRoleAssignment.create({data: {userId, roleId}})]:
    [organizationId] is left at its default, null. *)
Definition userRoleAssignment_create (userId roleId : nat) (d : Db) : Db * unit :=
  (with_roleAssignments (fun l => l ++ [mkAssignment userId roleId None]) d, tt).

Definition session_create (userId : nat) (token csrfToken : string)
           (userAgent ipAddress : option string) (expiresAt : Z) (d : Db)
  : Db * Session :=
  let s := mkSession (nextId d) userId token csrfToken userAgent ipAddress expiresAt in
  (with_nextId (S (nextId d)) (with_sessions (fun l => l ++ [s]) d), s).

(** [prisma.session.delete({where: {id}})]. *)
Definition session_delete (id : nat) (d : Db) : Db :=
  with_sessions (filter (fun s => negb (session_id s =? id)%nat)) d.

(** [prisma.session.deleteMany({where: {userId}})]. *)
Definition session_deleteMany (userId : nat) (d : Db) : Db :=
  with_sessions (filter (fun s => negb (session_userId s =? userId)%nat)) d.

Definition user_update (id : nat) (f : User -> User) (d : Db) : Db :=
  with_users (map (fun u => if (user_id u =? id)%nat then f u else u)) d.

Definition set_passwordHash (h : string) (u : User) : User :=
  mkUser (user_id u) (user_email u) h (user_isActive u) (user_lastLoginAt u).

Definition set_lastLoginAt (t : Z) (u : User) : User :=
  mkUser (user_id u) (user_email u) (user_passwordHash u) (user_isActive u) (Some t).

Definition auditLog_create (a : AuditLog) (d : Db) : Db * unit :=
  (with_auditLogs (fun l => l ++ [a]) d, tt).

(** [prisma.operatingHour.deleteMany({where: {salesInstanceId}})]. *)
Definition operatingHour_deleteMany (salesInstanceId : string) (d : Db) : Db :=
  with_operatingHours
    (filter (fun h => negb (oh_salesInstanceId h =? salesInstanceId))) d.

(** [prisma.operatingHour.createMany({data: hours.map(h =>
    ({salesInstanceId, ...h}))})]. *)
Fixpoint operatingHour_createMany (salesInstanceId : string)
         (hours : list HourInput) (d : Db) : Db :=
  match hours with
  | [] => d
  | h :: rest =>
      operatingHour_createMany salesInstanceId rest
        (with_nextId (S (nextId d))
           (with_operatingHours
              (fun l => l ++ [mkOperatingHour (nextId d) salesInstanceId h]) d))
  end.

Definition revoke (t : Z) (c : Consent) : Consent :=
  mkConsent (consent_id c) (consent_profileId c) (consent_type c) (consent_granted c)
            (consent_grantedAt c) (Some t) (consent_version c) (consent_ipAddress c).

(** [prisma.consent.updateMany({where: {profileId, type, revokedAt:
    null}, data: {revokedAt}})]. *)
Definition consent_revokeMany (profileId : nat) (type : string) (t : Z) (d : Db) : Db :=
  with_consents
    (map (fun c =>
            if (consent_profileId c =? profileId)%nat
               && (consent_type c =? type)
               && (match consent_revokedAt c with None => true | Some _ => false end)
            then revoke t c else c)) d.

Definition consent_create (profileId : nat) (type : string) (granted : bool)
           (grantedAt : Z) (version : string) (ipAddress : option string) (d : Db)
  : Db * Consent :=
  let c := mkConsent (nextId d) profileId type granted grantedAt None version ipAddress in
  (with_nextId (S (nextId d)) (with_consents (fun l => l ++ [c]) d), c).

(** Consents of a profile that are not revoked (the [GET /profile]
    filter [revokedAt: null]). *)
Definition consents_active (profileId : nat) (type : string) (d : Db) : list Consent :=
  filter (fun c => (consent_profileId c =? profileId)%nat
                   && (consent_type c =? type)
                   && (match consent_revokedAt c with None => true | Some _ => false end))
         (consents d).

End Store.
Import Store.

(* ================================================================== *)
(** * Running code against the store

    A computation reads the clock, draws random bytes and sends
    statements to the store.  The store may reject a write (a violated
    constraint, a lost connection): the call then throws and the write
    has no effect.  [w_faults] says, for the writes still to come,
    which ones the store rejects; an exhausted list means no further
    rejection. *)

Module Run.

Record World := mkWorld {
  w_db : Db;
  w_now : Z;
  w_faults : list bool;
  w_random : nat -> string;
  w_drawn : nat
}.

(** A world whose store accepts every write. *)
Definition calm (d : Db) (now : Z) (random : nat -> string) : World :=
  mkWorld d now [] random 0.

Definition with_db (d : Db) (w : World) : World :=
  mkWorld d (w_now w) (w_faults w) (w_random w) (w_drawn w).

Definition with_faults (fs : list bool) (w : World) : World :=
  mkWorld (w_db w) (w_now w) fs (w_random w) (w_drawn w).

Definition at_time (t : Z) (w : World) : World :=
  mkWorld (w_db w) t (w_faults w) (w_random w) (w_drawn w).

Definition M (A : Type) : Type := World -> World * Result A.

Definition ret {A} (a : A) : M A := fun w => (w, Ok a).

Definition bind {A B} (m : M A) (k : A -> M B) : M B :=
  fun w =>
    match m w with
    | (w', Ok a) => k a w'
    | (w', Err e) => (w', Err e)
    end.

Definition raise {A} (e : AppError) : M A := fun w => (w, Err (App e)).

(** [new Date()]. *)
Definition newDate : M Z := fun w => (w, Ok (w_now w)).

(** [crypto.randomBytes(32).toString('hex')]. *)
Definition randomHex : M string :=
  fun w => (mkWorld (w_db w) (w_now w) (w_faults w) (w_random w) (S (w_drawn w)),
            Ok (w_random w (w_drawn w))).

(** Time passing between two calls. *)
Definition elapse (dt : Z) : M unit :=
  fun w => (mkWorld (w_db w) (w_now w + dt) (w_faults w) (w_random w) (w_drawn w), Ok tt).

(** A read-only query. *)
Definition query {A} (q : Db -> A) : M A := fun w => (w, Ok (q (w_db w))).

Definition storeRejected : Error := Other "PrismaClientKnownRequestError".

(** One write statement, awaited on its own. *)
Definition write {A} (stmt : Db -> Db * A) : M A :=
  fun w =>
    match w_faults w with
    | true :: fs => (with_faults fs w, Err storeRejected)
    | false :: fs =>
        let (d, a) := stmt (w_db w) in (with_faults fs (with_db d w), Ok a)
    | [] =>
        let (d, a) := stmt (w_db w) in (with_db d w, Ok a)
    end.

Definition write_ (stmt : Db -> Db) : M unit :=
  write (fun d => (stmt d, tt)).

Fixpoint writeAll (stmts : list (Db -> Db)) : M unit :=
  match stmts with
  | [] => ret tt
  | s :: rest => bind (write_ s) (fun _ => writeAll rest)
  end.

(** [prisma.$transaction([s1, ..., sn])]: the statements run in order
    inside one database transaction; when one is rejected the store
    rolls back those before it and the call throws. *)
Definition transaction (stmts : list (Db -> Db)) : M unit :=
  fun w =>
    match writeAll stmts w with
    | (w', Ok tt) => (w', Ok tt)
    | (w', Err e) => (with_db (w_db w) w', Err e)
    end.

End Run.
Import Run.

Declare Scope run_scope.
Delimit Scope run_scope with run.
Notation "x <- m ;; k" := (bind m (fun x => k))
  (at level 61, m at next level, right associativity) : run_scope.
Notation "m ;; k" := (bind m (fun _ => k))
  (at level 61, right associativity) : run_scope.

Local Open Scope run_scope.

(* ================================================================== *)
(** * What the code takes from outside the repository

    The password hashing helpers, the [jsonwebtoken] library (with
    [env.JWT_SECRET] and [env.JWT_EXPIRES_IN] applied) and the
    configuration.  Signing and verifying read the clock, which is
    their second argument. *)

Module Env.

Record JwtPayload := mkPayload {
  jwt_userId : nat;
  jwt_sessionId : nat
}.

Inductive NodeEnv := development | production | test.

Class Collaborators := {
  hashPassword : string -> string;
  verifyPassword : string -> string -> bool;
  jwt_sign : JwtPayload -> Z -> string;
  jwt_verify : string -> Z -> option JwtPayload;
  NODE_ENV : NodeEnv
}.

End Env.
Import Env.

(* ================================================================== *)
(** * shared/middleware/auth.ts: authenticate *)

Module Authn.

(** What [authenticate] attaches to the request: [req.user],
    [req.session] and [req.csrfToken]. *)
Record AuthContext := mkContext {
  ctx_user : AuthenticatedUser;
  ctx_session : Session;
  ctx_csrfToken : string
}.

(** [rp => ({permission: rp.permission, scope: rp.scope?.name ?? null})]. *)
Definition grantOf (rp : RolePermission) : GrantedPermission :=
  mkGranted (rp_permission rp)
            (match rp_scope rp with Some sc => Some (scope_name sc) | None => None end).

(** [session.user.roleAssignments.map(ra => ...)], the [role] and its
    [permissions] coming from the include tree.  The foreign key of
    the assignment guarantees that its role exists; an assignment
    without one would not be returned by the join. *)
Definition heldRoles (uid : nat) (d : Db) : list HeldRole :=
  flat_map
    (fun ra =>
       match role_findById (ura_roleId ra) d with
       | Some r => [mkHeldRole (row_role r) (ura_organizationId ra)
                               (map grantOf (row_permissions r))]
       | None => []
       end)
    (roleAssignments_ofUser uid d).

Definition noUserRow : Error :=
  Other "TypeError: Cannot read properties of null".

Section WithCollaborators.
Context {C : Collaborators}.

(** [authenticate], given the value of [req.cookies?.auth_token]. *)
Definition authenticate (cookie : option string) : M AuthContext :=
  match cookie with
  | None => raise (UnauthorizedError "No authentication token provided")
  | Some token =>
      if negb (Js.truthy cookie)
      then raise (UnauthorizedError "No authentication token provided")
      else
        t <- newDate ;;
        match jwt_verify token t with
        | None => raise (UnauthorizedError "Invalid or expired token")
        | Some payload =>
            found <- query (session_findById (jwt_sessionId payload)) ;;
            now <- newDate ;;
            match found with
            | None => raise (UnauthorizedError "Session expired or invalid")
            | Some session =>
                if (session_expiresAt session <? now)%Z
                then raise (UnauthorizedError "Session expired or invalid")
                else
                  owner <- query (user_findById (session_userId session)) ;;
                  match owner with
                  | None => fun w => (w, Err noUserRow)
                  | Some user =>
                      if negb (user_isActive user)
                      then raise (UnauthorizedError "User account is deactivated")
                      else
                        held <- query (heldRoles (user_id user)) ;;
                        ret (mkContext
                               (mkAuthUser (user_id user) (user_email user)
                                           (session_id session) held)
                               session
                               (session_csrfToken session))
                  end
            end
        end
  end.

End WithCollaborators.

End Authn.
Import Authn.

(* ================================================================== *)
(** * modules/identity/auth.service.ts *)

Module AuthService.

Record RegisterInput := mkRegisterInput {
  reg_email : string;
  reg_password : string;
  reg_firstName : option string;
  reg_lastName : option string
}.

Record LoginInput := mkLoginInput {
  login_email : string;
  login_password : string
}.

Record ChangePasswordInput := mkChangePasswordInput {
  currentPassword : string;
  newPassword : string
}.

(** The parts of the request that reach the store:
    [req.headers['user-agent']] and [req.ip]. *)
Record Request := mkRequest {
  req_userAgent : option string;
  req_ip : option string
}.

Record AuthResult := mkAuthResult {
  result_userId : nat;
  result_userEmail : string;
  result_token : string;
  result_csrfToken : string;
  result_expiresAt : Z
}.

(** [expiresAt.setDate(expiresAt.getDate() + 7)]: seven calendar days
    later, which is this many milliseconds when the server clock has
    no daylight-saving shift in between (a server running in UTC). *)
Definition SEVEN_DAYS : Z := 7 * 24 * 60 * 60 * 1000.

Definition reqField (f : Request -> option string) (req : option Request)
  : option string :=
  match req with Some r => f r | None => None end.

Definition with_token (token : string) (s : Session) : Session :=
  mkSession (session_id s) (session_userId s) token (session_csrfToken s)
            (session_userAgent s) (session_ipAddress s) (session_expiresAt s).

(** [createAuditLog] of shared/utils/audit.ts: one awaited
    [auditLog.create]; the free-form [metadata] is not kept. *)
Definition createAuditLog (userId : nat) (action resource : string)
           (resourceId : nat) (req : option Request) : M unit :=
  write (auditLog_create
           (mkAuditLog (Some userId) action (Some resource) (Some resourceId)
                       (reqField req_ip req) (reqField req_userAgent req))).

Section WithCollaborators.
Context {C : Collaborators}.

(** [createSession]: returns [{...session, token}], the row with
    its [token] field overwritten by the signed JWT. *)
Definition createSession (userId : nat) (req : option Request) : M Session :=
  now <- newDate ;;
  let expiresAt := (now + SEVEN_DAYS)%Z in
  csrfToken <- randomHex ;;
  rowToken <- randomHex ;;
  session <- write (session_create userId rowToken csrfToken
                                   (reqField req_userAgent req)
                                   (reqField req_ip req) expiresAt) ;;
  t <- newDate ;;
  let token := jwt_sign (mkPayload userId (session_id session)) t in
  ret (with_token token session).

Definition register (input : RegisterInput) (req : option Request) : M AuthResult :=
  existingUser <- query (user_findByEmail (Js.toLowerCase (reg_email input))) ;;
  match existingUser with
  | Some _ => raise (ConflictError "Email already registered")
  | None =>
      let passwordHash := hashPassword (reg_password input) in
      user <- write (user_createWithProfile (Js.toLowerCase (reg_email input))
                                            passwordHash
                                            (reg_firstName input)
                                            (reg_lastName input)) ;;
      consumerRole <- query (role_findByName "consumer") ;;
      match consumerRole with
      | Some r =>
          write (userRoleAssignment_create (user_id user) (role_id (row_role r)))
      | None => ret tt
      end ;;
      session <- createSession (user_id user) req ;;
      createAuditLog (user_id user) "user.register" "user" (user_id user) req ;;
      ret (mkAuthResult (user_id user) (user_email user)
                        (session_token session) (session_csrfToken session)
                        (session_expiresAt session))
  end.

Definition login (input : LoginInput) (req : option Request) : M AuthResult :=
  found <- query (user_findByEmail (Js.toLowerCase (login_email input))) ;;
  match found with
  | None => raise (UnauthorizedError "Invalid email or password")
  | Some user =>
      if negb (user_isActive user)
      then raise (UnauthorizedError "Account is deactivated")
      else
        let isValid := verifyPassword (login_password input) (user_passwordHash user) in
        if negb isValid
        then raise (UnauthorizedError "Invalid email or password")
        else
          now <- newDate ;;
          write_ (user_update (user_id user) (set_lastLoginAt now)) ;;
          session <- createSession (user_id user) req ;;
          createAuditLog (user_id user) "user.login" "user" (user_id user) req ;;
          ret (mkAuthResult (user_id user) (user_email user)
                            (session_token session) (session_csrfToken session)
                            (session_expiresAt session))
  end.

(** The outcome of the [verifyPassword] call of [login] on a store,
    when [login] gets as far as making it: [None] when [login]
    returns before verifying (no such user, or a deactivated one). *)
Definition login_verification (input : LoginInput) (d : Db) : option bool :=
  match user_findByEmail (Js.toLowerCase (login_email input)) d with
  | None => None
  | Some user =>
      if negb (user_isActive user) then None
      else Some (verifyPassword (login_password input) (user_passwordHash user))
  end.

Definition logout (sessionId : nat) (req : option Request) : M unit :=
  found <- query (session_findById sessionId) ;;
  match found with
  | Some session =>
      write_ (session_delete sessionId) ;;
      createAuditLog (session_userId session) "user.logout" "session" sessionId req
  | None => ret tt
  end.

Definition changePassword (userId : nat) (input : ChangePasswordInput)
           (req : option Request) : M unit :=
  found <- query (user_findById userId) ;;
  match found with
  | None => raise (NotFoundError "User")
  | Some user =>
      let isValid := verifyPassword (currentPassword input) (user_passwordHash user) in
      if negb isValid
      then raise (UnauthorizedError "Current password is incorrect")
      else
        let passwordHash := hashPassword (newPassword input) in
        transaction [ user_update userId (set_passwordHash passwordHash);
                      session_deleteMany userId ] ;;
        createAuditLog userId "user.password_reset" "user" userId req
  end.

(** [refreshSession]: [findUnique] with [include: {user: true}];
    the owner row is only read for the returned value. *)
Definition refreshSession (sessionId : nat) : M (option AuthResult) :=
  found <- query (session_findById sessionId) ;;
  owner <- query (fun d => match found with
                           | Some s => user_findById (session_userId s) d
                           | None => None
                           end) ;;
  now <- newDate ;;
  match found with
  | None => ret None
  | Some session =>
      if (session_expiresAt session <? now)%Z
      then ret None
      else
        newSession <- createSession (session_userId session) None ;;
        write_ (session_delete sessionId) ;;
        match owner with
        | None => fun w => (w, Err noUserRow)
        | Some user =>
            ret (Some (mkAuthResult (user_id user) (user_email user)
                                    (session_token newSession)
                                    (session_csrfToken newSession)
                                    (session_expiresAt newSession)))
        end
  end.

End WithCollaborators.

End AuthService.
Import AuthService.

(* ================================================================== *)
(** * The HTTP layer: error-handler.ts and the route handlers *)

Module Http.

Inductive CookieOp :=
| SetCookie (name value : string)
| ClearCookie (name : string).

Inductive Data :=
| AuthData (userId : nat) (email csrfToken : string) (expiresAt : Z)
| HoursData (hours : list OperatingHour)
| ConsentData (consent : Consent)
| MessageData (text : string).

(** The [ApiResponse] JSON body. *)
Inductive Body :=
| Success (data : Data)
| Failure (code message : string).

(** The Express response object: the status, the cookie operations
    performed on it, in order, and the body sent. *)
Record Response := mkResponse {
  resp_status : Z;
  resp_cookies : list CookieOp;
  resp_body : option Body
}.

Definition res0 : Response := mkResponse 200 [] None.

Definition res_status (st : Z) (res : Response) : Response :=
  mkResponse st (resp_cookies res) (resp_body res).

Definition res_json (b : Body) (res : Response) : Response :=
  mkResponse (resp_status res) (resp_cookies res) (Some b).

Definition res_cookie (name value : string) (res : Response) : Response :=
  mkResponse (resp_status res) (resp_cookies res ++ [SetCookie name value]) (resp_body res).

Definition res_clearCookie (name : string) (res : Response) : Response :=
  mkResponse (resp_status res) (resp_cookies res ++ [ClearCookie name]) (resp_body res).

Definition clearsCookie (name : string) (res : Response) : bool :=
  existsb (fun op => match op with
                     | ClearCookie n => n =? name
                     | SetCookie _ _ => false
                     end) (resp_cookies res).

(** The answer of [POST /auth/refresh] to a refresh that returned
    null. *)
Definition sessionExpired : Response :=
  mkResponse 401 [ClearCookie "auth_token"]
             (Some (Failure "SESSION_EXPIRED" "Session expired")).

(** The body of [POST /profile/consents] after schema validation. *)
Record ConsentInput := mkConsentInput {
  input_type : string;
  input_granted : bool;
  input_version : string
}.

Section WithCollaborators.
Context {C : Collaborators}.

(** [errorHandler(err, req, res, next)]. *)
Definition errorHandler (err : Error) (res : Response) : Response :=
  match err with
  | ZodError =>
      res_json (Failure "VALIDATION_ERROR" "Validation failed") (res_status 400 res)
  | App e =>
      res_json (Failure (code e) (message e)) (res_status (statusCode e) res)
  | Other msg =>
      res_json (Failure "INTERNAL_ERROR"
                        (match NODE_ENV with
                         | production => "An unexpected error occurred"
                         | _ => msg
                         end))
               (res_status 500 res)
  end.

(** A route: the middleware chain and the handler run in order;
    whatever one of them throws is passed by [next(error)] to
    [errorHandler], mounted last in the application.  None of the
    handlers below touches [res] before its last store call, so the
    error handler receives the response object untouched. *)
Definition route (handler : M Response) (w : World) : World * Response :=
  match handler w with
  | (w', Ok res) => (w', res)
  | (w', Err e) => (w', errorHandler e res0)
  end.

Definition lift {A} (r : Result A) : M A := fun w => (w, r).

(** [schema.parse(req.body)]: a body that does not fit throws a
    [ZodError]. *)
Definition parse {A} (body : option A) : M A :=
  match body with
  | Some a => ret a
  | None => fun w => (w, Err ZodError)
  end.

Definition authData (r : AuthResult) : Data :=
  AuthData (result_userId r) (result_userEmail r) (result_csrfToken r)
           (result_expiresAt r).

(** [POST /auth/login]. *)
Definition postLogin (body : option LoginInput) (req : option Request)
  : World -> World * Response :=
  route (input <- parse body ;;
         result <- login input req ;;
         ret (res_json (Success (authData result))
                       (res_cookie "auth_token" (result_token result) res0))).

(** [POST /auth/refresh]; [dt] is the time that passes between
    the [authenticate] middleware and the handler. *)
Definition postRefresh (cookie : option string) (dt : Z)
  : World -> World * Response :=
  route (ctx <- authenticate cookie ;;
         elapse dt ;;
         result <- refreshSession (au_sessionId (ctx_user ctx)) ;;
         match result with
         | None =>
             ret (res_json (Failure "SESSION_EXPIRED" "Session expired")
                           (res_status 401 (res_clearCookie "auth_token" res0)))
         | Some r =>
             ret (res_json (Success (authData r))
                           (res_cookie "auth_token" (result_token r) res0))
         end).

(** The handler of [PUT /sales-instances/:id/hours]. *)
Definition replaceHours (id : string) (body : option (list HourInput)) : M Response :=
  hours <- parse body ;;
  transaction [ operatingHour_deleteMany id;
                operatingHour_createMany id hours ] ;;
  updated <- query (operatingHours_of id) ;;
  ret (res_json (Success (HoursData updated)) res0).

(** [PUT /sales-instances/:id/hours]. *)
Definition putHours (cookie : option string) (id : string)
           (body : option (list HourInput)) : World -> World * Response :=
  route (ctx <- authenticate cookie ;;
         lift (Gate.requirePermission [mkCheck "sales_instance.update" None None]
                                      (Some (ctx_user ctx))) ;;
         replaceHours id body).

(** The handler of [POST /profile/consents], for the authenticated
    user [userId]. *)
Definition recordConsent (userId : nat) (body : option ConsentInput)
           (req : option Request) : M Response :=
  input <- parse body ;;
  found <- query (profile_findByUserId userId) ;;
  match found with
  | None => raise (NotFoundError "Profile")
  | Some profile =>
      t <- newDate ;;
      write_ (consent_revokeMany (profile_id profile) (input_type input) t) ;;
      t' <- newDate ;;
      consent <- write (consent_create (profile_id profile) (input_type input)
                                       (input_granted input) t'
                                       (input_version input)
                                       (reqField req_ip req)) ;;
      createAuditLog userId "consent.update" "consent" (consent_id consent) req ;;
      ret (res_json (Success (ConsentData consent)) res0)
  end.

(** [POST /profile/consents]. *)
Definition postConsents (cookie : option string) (body : option ConsentInput)
           (req : option Request) : World -> World * Response :=
  route (ctx <- authenticate cookie ;;
         recordConsent (au_id (ctx_user ctx)) body req).

End WithCollaborators.

End Http.
Import Http.

(* ================================================================== *)
(** * modules/identity/routes.ts: the other routes *)

Module Routes.




(** The answer of [POST /auth/logout]. *)
Definition loggedOut : Response :=
  res_json (Success (MessageData "Logged out successfully"))
           (res_clearCookie "auth_token" res0).

(** The answer of [POST /auth/change-password]. *)
Definition passwordChanged : Response :=
  res_json (Success (MessageData "Password changed successfully. Please log in again."))
           (res_clearCookie "auth_token" res0).

Section WithCollaborators.
Context {C : Collaborators}.

(** [POST /auth/register]. *)
Definition postRegister (body : option RegisterInput) (req : option Request)
  : World -> World * Response :=
  route (input <- parse body ;;
         result <- register input req ;;
         ret (res_json (Success (authData result))
                       (res_status 201
                          (res_cookie "auth_token" (result_token result) res0)))).

(** [POST /auth/logout].  The handler calls [logout] under
    [if (req.user?.sessionId)]; after [authenticate] that is the
    identifier of the session row, a non-empty string, so the call is
    always made. *)
Definition postLogout (cookie : option string) (req : option Request)
  : World -> World * Response :=
  route (ctx <- authenticate cookie ;;
         logout (au_sessionId (ctx_user ctx)) req ;;
         ret loggedOut).

(** [POST /auth/change-password]: [authenticate], [verifyCsrf] on the
    [x-csrf-token] header, then the handler. *)
Definition postChangePassword (cookie csrfHeader : option string)
           (body : option ChangePasswordInput) (req : option Request)
  : World -> World * Response :=
  route (ctx <- authenticate cookie ;;
         lift (Gate.verifyCsrf csrfHeader (Some (ctx_csrfToken ctx))) ;;
         input <- parse body ;;
         changePassword (au_id (ctx_user ctx)) input req ;;
         ret passwordChanged).


End WithCollaborators.

End Routes.
Import Routes.

(* ================================================================== *)
(** * A concrete environment and concrete stores

    Used to run the code on explicit inputs. *)

Module Sample.

Fixpoint rep (n : nat) (c : ascii) : string :=
  match n with
  | O => EmptyString
  | S k => String c (rep k c)
  end.

(** Length of the run of [c] at the head of [s], and what follows. *)
Fixpoint run (c : ascii) (s : string) : nat * string :=
  match s with
  | String a r =>
      if Ascii.eqb a c then let (n, rest) := run c r in (S n, rest) else (0, s)
  | EmptyString => (0, EmptyString)
  end.

(** A token carries its payload in the clear, ["J"] then the user id
    and the session id in unary; it verifies at any time, like a JWT
    signed with an [expiresIn] beyond every instant considered. *)
Definition sign (p : JwtPayload) (_ : Z) : string :=
  String "J" (rep (jwt_userId p) "u" ++ rep (jwt_sessionId p) "s")%string.

Definition verify (token : string) (_ : Z) : option JwtPayload :=
  match token with
  | String "J" body =>
      let (u, r) := run "u" body in
      let (s, r') := run "s" r in
      if r' =? "" then Some (mkPayload u s) else None
  | _ => None
  end.

Definition collaborators : Collaborators :=
  {| hashPassword := fun p => ("h:" ++ p)%string;
     verifyPassword := fun p h => h =? ("h:" ++ p)%string;
     jwt_sign := sign;
     jwt_verify := verify;
     NODE_ENV := production |}.

Definition random (n : nat) : string := rep (S n) "r".

Definition menuUpdate : Permission := mkPermission 7 "menu.update".

Definition manager : Role := mkRole 5 "franchise_manager" "FRANCHISE" true.

(** An identity holding one role, assigned in organization [org],
    that grants [menu.update] under scope [sc]. *)
Definition identity (org sc : option string) : AuthenticatedUser :=
  mkAuthUser 1 "a@b.com" 2 [mkHeldRole manager org [mkGranted menuUpdate sc]].

Definition alice (active : bool) : User :=
  mkUser 1 "a@b.com" "h:Secret123!" active None.

(** Alice, her profile, and one session of hers expiring at 1000. *)
Definition store (active : bool) : Db :=
  mkDb [alice active]
       [mkProfile 3 1 (Some "Alice") None]
       [mkSession 2 1 "rr" "r" None None 1000]
       [] [] []
       [mkConsent 4 3 "marketing" true 10 None "v1" None]
       [mkOperatingHour 6 "truck" (mkHourInput 1 "09:00" "17:00" true)]
       8.

End Sample.

(* ================================================================== *)
(** * Store invariants and the evolution of the store *)

Module Evolution.

(** Identifiers in use lie below the allocation counter. *)
Definition sessionsFresh (d : Db) : Prop :=
  forall s, In s (sessions d) -> (session_id s < nextId d)%nat.

(** Role assignments refer to users that were created. *)
Definition assignmentsBound (d : Db) : Prop :=
  forall ra, In ra (roleAssignments d) -> (ura_userId ra < nextId d)%nat.

(** [d'] comes after [d]: the counter did not go back, and a
    session row of [d'] either was already in [d] or got its
    identifier from the counter since. *)
Definition grows (d d' : Db) : Prop :=
  (nextId d <= nextId d')%nat
  /\ forall s, In s (sessions d') ->
               In s (sessions d) \/ (nextId d <= session_id s < nextId d')%nat.

(** A computation all of whose runs let the store grow. *)
Definition Grows {A} (m : M A) : Prop :=
  forall w, grows (w_db w) (w_db (fst (m w))).

(** The session [sid] was allocated and its row is gone. *)
Definition gone (sid : nat) (d : Db) : Prop :=
  session_findById sid d = None /\ (sid < nextId d)%nat.

Section WithCollaborators.
Context {C : Collaborators}.

(** One step of the system: a call of the auth service or of one
    of the handlers with any arguments, the clock moving, or the
    store starting or ceasing to reject writes. *)
Inductive step : World -> World -> Prop :=
| step_register input req w : step w (fst (register input req w))
| step_login input req w : step w (fst (login input req w))
| step_logout sid req w : step w (fst (logout sid req w))
| step_changePassword uid input req w :
    step w (fst (changePassword uid input req w))
| step_refreshSession sid w : step w (fst (refreshSession sid w))
| step_replaceHours id body w : step w (fst (replaceHours id body w))
| step_recordConsent uid body req w : step w (fst (recordConsent uid body req w))
| step_clock t w : step w (at_time t w)
| step_faults fs w : step w (with_faults fs w).

Inductive steps : World -> World -> Prop :=
| steps_refl w : steps w w
| steps_cons w1 w2 w3 : step w1 w2 -> steps w2 w3 -> steps w1 w3.

End WithCollaborators.

(** The three groups of writes and what each does when it runs in
    full. *)
Definition passwordGroup (userId : nat) (passwordHash : string) : list (Db -> Db) :=
  [ user_update userId (set_passwordHash passwordHash); session_deleteMany userId ].

Definition hoursGroup (id : string) (hours : list HourInput) : list (Db -> Db) :=
  [ operatingHour_deleteMany id; operatingHour_createMany id hours ].

Definition consentGroup (profileId : nat) (input : ConsentInput) (t : Z)
           (ip : option string) : list (Db -> Db) :=
  [ consent_revokeMany profileId (input_type input) t;
    fun d => fst (consent_create profileId (input_type input) (input_granted input) t
                                 (input_version input) ip d) ].

Definition applyAll (stmts : list (Db -> Db)) (d : Db) : Db :=
  fold_left (fun acc stmt => stmt acc) stmts d.

(** A run of a group of writes is all-or-nothing when it leaves the
    store either with every write of the group applied or as it
    found it. *)
Definition allOrNothing (stmts : list (Db -> Db)) (before after : Db) : Prop :=
  after = applyAll stmts before \/ after = before.

End Evolution.
Import Evolution.

(* ================================================================== *)
(** * Referential integrity of the store

    What the relational schema guarantees about the rows: generated
    identifiers are in use below the counter, and a foreign key points
    at a row. *)

Module Integrity.


(** Session identifiers are unique. *)
Definition sessionsDistinct (d : Db) : Prop :=
  NoDup (map session_id (sessions d)).



(** The held role that [authenticate] builds from an assignment and
    the row of its role. *)
Definition heldOf (ra : UserRoleAssignment) (r : RoleRow) : HeldRole :=
  mkHeldRole (row_role r) (ura_organizationId ra) (map grantOf (row_permissions r)).

(** A store with the seeded [consumer] role and one user holding it
    globally, with her session. *)
Definition consumer : RoleRow :=
  mkRoleRow (mkRole 1 "consumer" "CONSUMER" true)
            [mkRolePermission (mkPermission 2 "menu.view") None;
             mkRolePermission (mkPermission 3 "profile.manage.self")
                              (Some (mkScope 4 "self"))].

Definition seeded : Db :=
  mkDb [mkUser 5 "a@b.com" "h:Secret123!" true None]
       [mkProfile 6 5 (Some "Alice") None]
       [mkSession 7 5 "rr" "r" None None 1000;
        mkSession 8 5 "rrrr" "rrr" None None 2000]
       [consumer]
       [mkAssignment 5 1 None]
       [] [] [] 9.

End Integrity.
Import Integrity.

(* ================================================================== *)
(** * The permission resolver *)

Module GateFacts.
Import Gate.

Lemma existsb_false_forall {A} (f : A -> bool) (l : list A) :
  (forall x, In x l -> f x = false) -> existsb f l = false.
Proof.
  induction l as [|a l IH]; intros H; simpl; [reflexivity|].
  rewrite (H a (or_introl eq_refl)), IH; [reflexivity|].
  intros x Hx; apply H; now right.
Qed.

Lemma hasPermission_single u check :
  hasPermission u [check] = existsb (roleSatisfies check) (au_roles u).
Proof. unfold hasPermission; simpl; now rewrite orb_false_r. Qed.

Lemma strict_eq_true a b : Js.strict_eq a b = true -> a = b.
Proof.
  destruct a as [x|], b as [y|]; simpl; try discriminate.
  intros H; apply String.eqb_eq in H; now subst.
Qed.

(** A role assignment satisfies an organization-scoped requirement
    only when it carries that very organization. *)
Lemma roleSatisfies_org check ra :
  Js.truthy (check_organizationId check) = true ->
  roleSatisfies check ra = true ->
  ra_organizationId ra = check_organizationId check
  /\ existsb (permMatches check) (ra_permissions ra) = true.
Proof.
  intros Hset; unfold roleSatisfies; rewrite Hset; simpl.
  destruct (Js.strict_eq _ _) eqn:E; simpl; [|discriminate].
  intros H; split; [now apply strict_eq_true | exact H].
Qed.

(** C1: when the requirement names an organization (its
    [organizationId] is set: the code tests it by truthiness, so a
    non-empty string), the gate lets the identity pass only through
    a held role assignment whose [organizationId] is exactly that
    one and which grants the permission; an identity none of whose
    assignments carries that organization -- another organization,
    or the global [null] -- is answered Forbidden, whatever its
    roles grant. *)
Theorem org_requirement_exact (u : AuthenticatedUser) (check : PermissionCheck) :
  Js.truthy (check_organizationId check) = true ->
  (requirePermission [check] (Some u) = Ok tt ->
   exists ra, In ra (au_roles u)
              /\ ra_organizationId ra = check_organizationId check
              /\ existsb (permMatches check) (ra_permissions ra) = true)
  /\ ((forall ra, In ra (au_roles u) ->
                  ra_organizationId ra <> check_organizationId check) ->
      requirePermission [check] (Some u)
      = throw (ForbiddenError "Insufficient permissions")).
Proof.
  intros Hset; unfold requirePermission; rewrite hasPermission_single; split.
  - destruct (existsb _ _) eqn:E; [intros _ | discriminate].
    apply existsb_exists in E as (ra & Hin & Hsat).
    exists ra; split; [exact Hin|]; now apply roleSatisfies_org.
  - intros Hother.
    rewrite existsb_false_forall; [reflexivity|].
    intros ra Hin; destruct (roleSatisfies check ra) eqn:E; [|reflexivity].
    apply roleSatisfies_org in E as [E _]; [|exact Hset].
    now apply Hother in Hin.
Qed.

(** The requirement of the design document, [menu.update] in
    ["org1"], against an identity holding the granting role in
    ["org2"] only. *)
Lemma org_requirement_exact_witness :
  Js.truthy (Some "org1") = true
  /\ requirePermission [mkCheck "menu.update" None (Some "org1")]
                       (Some (Sample.identity (Some "org2") None))
     = throw (ForbiddenError "Insufficient permissions").
Proof.
  split; [reflexivity|].
  apply (org_requirement_exact (Sample.identity (Some "org2") None)
                               (mkCheck "menu.update" None (Some "org1")));
    [reflexivity|].
  simpl; intros ra [<-|[]]; simpl; discriminate.
Defined.

(** The same holds for a global assignment; with the requirement's
    organization left out, or empty, the assignment's organization
    is not looked at. *)
Example global_assignment_denied :
  requirePermission [mkCheck "menu.update" None (Some "org1")]
                    (Some (Sample.identity None None))
  = throw (ForbiddenError "Insufficient permissions").
Proof. reflexivity. Qed.

Example empty_organization_not_checked :
  requirePermission [mkCheck "menu.update" None (Some "")]
                    (Some (Sample.identity (Some "org2") None))
  = Ok tt.
Proof. reflexivity. Qed.

(** A null-scope entry for the permission matches a requirement
    exactly when the requirement asks for no scope. *)
Lemma permMatches_null_scope check perm :
  perm_scope perm = None ->
  permission_name (perm_permission perm) = check_permission check ->
  permMatches check perm = negb (Js.truthy (check_scope check)).
Proof.
  intros Hnull Hname; unfold permMatches; rewrite Hnull, Hname, String.eqb_refl.
  simpl; now rewrite orb_false_r.
Qed.

Lemma permMatches_scoped check perm :
  Js.truthy (check_scope check) = true ->
  permMatches check perm = true ->
  permission_name (perm_permission perm) = check_permission check
  /\ perm_scope perm = check_scope check.
Proof.
  intros Hset; unfold permMatches; rewrite Hset; simpl.
  intros H; apply andb_true_iff in H as [Hn Hs].
  split; [now apply String.eqb_eq | now apply strict_eq_true].
Qed.

(** C2, as stated, fails: the role grants [menu.update] with a null
    scope, the requirement asks for [menu.update] under scope
    ["self"], and the gate answers Forbidden. *)
Lemma null_scope_grant_not_covering :
  let u := Sample.identity None None in
  let check := mkCheck "menu.update" (Some "self") None in
  (exists ra perm, In ra (au_roles u) /\ In perm (ra_permissions ra)
                   /\ permission_name (perm_permission perm) = check_permission check
                   /\ perm_scope perm = None)
  /\ requirePermission [check] (Some u)
     = throw (ForbiddenError "Insufficient permissions").
Proof.
  split; [|reflexivity].
  exists (mkHeldRole Sample.manager None [mkGranted Sample.menuUpdate None]),
         (mkGranted Sample.menuUpdate None).
  simpl; repeat split; now left.
Qed.

(** C2, amended: scopes are matched literally.  An entry for the
    permission with a null scope satisfies the requirement exactly
    when the requirement's scope is unset; when a scope is required,
    an entry matches only if its own scope is that one, and an
    identity whose entries for the permission all have a null scope
    is answered Forbidden. *)
Theorem scope_matched_literally (u : AuthenticatedUser) (check : PermissionCheck) :
  (forall perm,
      perm_scope perm = None ->
      permission_name (perm_permission perm) = check_permission check ->
      permMatches check perm = negb (Js.truthy (check_scope check)))
  /\ (Js.truthy (check_scope check) = true ->
      (forall perm, permMatches check perm = true ->
                    perm_scope perm = check_scope check)
      /\ ((forall ra perm, In ra (au_roles u) -> In perm (ra_permissions ra) ->
                           permission_name (perm_permission perm) = check_permission check ->
                           perm_scope perm = None) ->
          requirePermission [check] (Some u)
          = throw (ForbiddenError "Insufficient permissions"))).
Proof.
  split; [intros perm; apply permMatches_null_scope|].
  intros Hset; split.
  - intros perm H; now apply permMatches_scoped in H.
  - intros Hnull; unfold requirePermission; rewrite hasPermission_single.
    rewrite existsb_false_forall; [reflexivity|].
    intros ra Hra; unfold roleSatisfies.
    destruct (_ && _); [reflexivity|].
    apply existsb_false_forall; intros perm Hperm.
    destruct (permMatches check perm) eqn:E; [|reflexivity].
    destruct (permMatches_scoped _ _ Hset E) as [Hn Hs].
    rewrite (Hnull ra perm Hra Hperm Hn) in Hs.
    rewrite <- Hs in Hset; discriminate.
Qed.

Lemma scope_matched_literally_witness :
  Js.truthy (Some "self") = true
  /\ requirePermission [mkCheck "menu.update" (Some "self") None]
                       (Some (Sample.identity None None))
     = throw (ForbiddenError "Insufficient permissions").
Proof.
  split; [reflexivity|].
  apply (scope_matched_literally (Sample.identity None None)
                                 (mkCheck "menu.update" (Some "self") None));
    [reflexivity|].
  simpl; intros ra perm [<-|[]] [<-|[]] _; reflexivity.
Defined.

(** C9: with no requirement at all the gate answers Forbidden to
    every identity: the disjunction over an empty list is false. *)
Theorem no_checks_forbidden (u : AuthenticatedUser) :
  requirePermission [] (Some u) = throw (ForbiddenError "Insufficient permissions")
  /\ isForbidden (requirePermission [] (Some u)) = true.
Proof. split; reflexivity. Qed.

(** The OR over the supplied requirements. *)
Lemma hasPermission_app u cs1 cs2 :
  hasPermission u (cs1 ++ cs2) = hasPermission u cs1 || hasPermission u cs2.
Proof. unfold hasPermission; apply existsb_app. Qed.

End GateFacts.

(* ================================================================== *)
(** * Sessions: validation and refresh *)

Module SessionFacts.

Ltac run_unfold :=
  unfold bind, ret, raise, newDate, query, randomHex, write_, write; simpl.

Section WithCollaborators.
Context {C : Collaborators}.

(** What [authenticate] answers once the token has verified and
    the session row and its owner have been loaded. *)
Lemma authenticate_loaded (w : World) token p s u :
  token <> "" ->
  jwt_verify token (w_now w) = Some p ->
  session_findById (jwt_sessionId p) (w_db w) = Some s ->
  user_findById (session_userId s) (w_db w) = Some u ->
  authenticate (Some token) w =
  if (session_expiresAt s <? w_now w)%Z
  then (w, Err (App (UnauthorizedError "Session expired or invalid")))
  else if negb (user_isActive u)
       then (w, Err (App (UnauthorizedError "User account is deactivated")))
       else (w, Ok (mkContext
                      (mkAuthUser (user_id u) (user_email u) (session_id s)
                                  (heldRoles (user_id u) (w_db w)))
                      s (session_csrfToken s))).
Proof.
  intros Htok Hv Hs Hu; unfold authenticate; simpl.
  apply String.eqb_neq in Htok; rewrite Htok; simpl.
  run_unfold; rewrite Hv; simpl; rewrite Hs.
  destruct (_ <? _)%Z; [reflexivity|].
  rewrite Hu; destruct (user_isActive u); reflexivity.
Qed.

(** A token that refers to a session without a row is refused. *)
Lemma authenticate_no_row (w : World) cookie :
  (forall token p, cookie = Some token -> jwt_verify token (w_now w) = Some p ->
                   session_findById (jwt_sessionId p) (w_db w) = None) ->
  exists msg, authenticate cookie w = (w, Err (App (UnauthorizedError msg))).
Proof.
  intros H; unfold authenticate.
  destruct cookie as [token|]; [|eexists; reflexivity].
  destruct (negb (Js.truthy (Some token))); [eexists; reflexivity|].
  run_unfold.
  destruct (jwt_verify token (w_now w)) as [p|] eqn:E; [|eexists; reflexivity].
  rewrite (H token p eq_refl E); eexists; reflexivity.
Qed.

(** A write that returns went through. *)
Lemma write_ok {A} (stmt : Db -> Db * A) (w w' : World) (a : A) :
  write stmt w = (w', Ok a) ->
  w_db w' = fst (stmt (w_db w)) /\ a = snd (stmt (w_db w))
  /\ w_now w' = w_now w /\ w_random w' = w_random w /\ w_drawn w' = w_drawn w.
Proof.
  unfold write; destruct (w_faults w) as [|[|] fs];
    try discriminate; destruct (stmt (w_db w)) as [d x]; simpl;
    intros H; injection H as <- <-; simpl; repeat split.
Qed.

(** [refreshSession] returns null, and leaves everything as it
    is, when the row is absent or its expiry lies before now. *)
Lemma refreshSession_null (sid : nat) (w : World) :
  session_findById sid (w_db w) = None
  \/ (exists s, session_findById sid (w_db w) = Some s
                /\ (session_expiresAt s < w_now w)%Z) ->
  refreshSession sid w = (w, Ok None).
Proof.
  unfold refreshSession; run_unfold.
  intros [H | (s & H & Hexp)]; rewrite H; [reflexivity|].
  apply Z.ltb_lt in Hexp; now rewrite Hexp.
Qed.

(** What a successful [refreshSession] has done. *)
Lemma refreshSession_some (sid : nat) (w w' : World) (r : AuthResult) :
  refreshSession sid w = (w', Ok (Some r)) ->
  exists s u,
    session_findById sid (w_db w) = Some s
    /\ (w_now w <= session_expiresAt s)%Z
    /\ user_findById (session_userId s) (w_db w) = Some u
    /\ w_now w' = w_now w
    /\ w_db w' =
       session_delete sid
         (fst (session_create (session_userId s)
                              (w_random w (S (w_drawn w)))
                              (w_random w (w_drawn w))
                              None None (w_now w + SEVEN_DAYS)%Z (w_db w)))
    /\ r = mkAuthResult (user_id u) (user_email u)
                        (jwt_sign (mkPayload (session_userId s) (nextId (w_db w)))
                                  (w_now w))
                        (w_random w (w_drawn w))
                        (w_now w + SEVEN_DAYS)%Z.
Proof.
  unfold refreshSession, createSession.
  unfold bind at 1, query at 1; simpl.
  destruct (session_findById sid (w_db w)) as [s|] eqn:Hs;
    [|run_unfold; discriminate].
  unfold bind at 1, query at 1; simpl.
  unfold bind at 1, newDate at 1; simpl.
  destruct (session_expiresAt s <? w_now w)%Z eqn:Hexp;
    [run_unfold; discriminate|].
  apply Z.ltb_ge in Hexp.
  unfold bind at 1. unfold bind at 1, newDate at 1; simpl.
  unfold bind at 1, randomHex at 1; simpl.
  unfold bind at 1, randomHex at 1; simpl.
  unfold bind at 1.
  match goal with |- context [write ?st ?x] =>
    destruct (write st x) as [w1 [ns|e]] eqn:Hw1 end; [|discriminate].
  apply write_ok in Hw1 as (Hd1 & Hns & Hn1 & Hr1 & Hc1); simpl in *.
  unfold bind at 1, write_.
  match goal with |- context [write ?st ?x] =>
    destruct (write st x) as [w2 [[]|e]] eqn:Hw2 end; [|discriminate].
  apply write_ok in Hw2 as (Hd2 & _ & Hn2 & Hr2 & Hc2); simpl in *.
  destruct (user_findById (session_userId s) (w_db w)) as [u|] eqn:Hu;
    [|discriminate].
  unfold ret; intros H; injection H as <- <-.
  exists s, u; repeat split; try assumption.
  - congruence.
  - rewrite Hd2, Hd1; reflexivity.
  - rewrite Hns, Hn1; reflexivity.
Qed.

(** C5, amended: [refreshSession] hands out a replacement only
    for a session whose row exists and whose expiry is not before
    now ([now <= expiresAt]); when the row is absent or its expiry
    lies before now it returns null -- a value, not a thrown error
    -- and the store is left as it was, so no replacement was
    created. *)
Theorem refresh_only_unexpired (sid : nat) (w : World) :
  (forall w' r, refreshSession sid w = (w', Ok (Some r)) ->
                exists s, session_findById sid (w_db w) = Some s
                          /\ (w_now w <= session_expiresAt s)%Z)
  /\ (session_findById sid (w_db w) = None
      \/ (exists s, session_findById sid (w_db w) = Some s
                    /\ (session_expiresAt s < w_now w)%Z) ->
      refreshSession sid w = (w, Ok None)).
Proof.
  split; [|apply refreshSession_null].
  intros w' r H; apply refreshSession_some in H as (s & u & Hs & Hle & _).
  now exists s.
Qed.

(** C6, amended: for a session with expiry [T] whose token
    verifies and whose owner is active, [authenticate] accepts at
    every instant up to and including [T] ([now <= T]) and answers
    Unauthenticated at every instant after [T]: the test of the
    code is [expiresAt < now]. *)
Theorem validate_through_expiry (w : World) token p s u :
  token <> "" ->
  jwt_verify token (w_now w) = Some p ->
  session_findById (jwt_sessionId p) (w_db w) = Some s ->
  user_findById (session_userId s) (w_db w) = Some u ->
  user_isActive u = true ->
  ((w_now w <= session_expiresAt s)%Z ->
   exists ctx, authenticate (Some token) w = (w, Ok ctx) /\ ctx_session ctx = s)
  /\ ((session_expiresAt s < w_now w)%Z ->
      authenticate (Some token) w
      = (w, Err (App (UnauthorizedError "Session expired or invalid")))
      /\ isUnauthenticated (snd (authenticate (Some token) w)) = true).
Proof.
  intros Htok Hv Hs Hu Hact.
  rewrite (authenticate_loaded w token p s u Htok Hv Hs Hu), Hact; simpl.
  split; intros H.
  - apply Z.ltb_ge in H; rewrite H; eexists; split; reflexivity.
  - apply Z.ltb_lt in H; rewrite H; split; reflexivity.
Qed.

End WithCollaborators.

Lemma validate_through_expiry_witness :
  exists ctx,
    authenticate (C := Sample.collaborators) (Some "Juss")
                 (calm (Sample.store true) 1000 Sample.random)
    = (calm (Sample.store true) 1000 Sample.random, Ok ctx)
    /\ ctx_session ctx = mkSession 2 1 "rr" "r" None None 1000.
Proof.
  apply (proj1 (validate_through_expiry
                  (C := Sample.collaborators)
                  (calm (Sample.store true) 1000 Sample.random)
                  "Juss" (mkPayload 1 2)
                  (mkSession 2 1 "rr" "r" None None 1000)
                  (Sample.alice true)
                  ltac:(discriminate) eq_refl eq_refl eq_refl eq_refl)).
  simpl; lia.
Defined.

(** C6, as stated, fails at the instant of expiry: a session is
    created at time 50, which sets its expiry [T] seven days later,
    and [authenticate] run at the instant [T] itself accepts it. *)
Lemma accepted_at_expiry_instant :
  exists w1 s ctx,
    createSession (C := Sample.collaborators) 1 None
                  (calm (Sample.store true) 50 Sample.random) = (w1, Ok s)
    /\ session_expiresAt s = (50 + SEVEN_DAYS)%Z
    /\ authenticate (C := Sample.collaborators) (Some (session_token s))
                    (at_time (session_expiresAt s) w1)
       = (at_time (session_expiresAt s) w1, Ok ctx)
    /\ isUnauthenticated
         (snd (authenticate (C := Sample.collaborators) (Some (session_token s))
                            (at_time (session_expiresAt s) w1))) = false.
Proof.
  eexists; eexists; eexists.
  split; [vm_compute; reflexivity|].
  split; [reflexivity|].
  split; vm_compute; reflexivity.
Qed.

(** C5, as stated, fails at the instant of expiry: with [now] equal
    to the expiry the session is not valid in the sense of the claim
    ([now < expiresAt] is false), yet [refreshSession] returns a
    replacement and the store holds a new session row. *)
Lemma refresh_at_expiry_instant :
  let w := calm (Sample.store true) 1000 Sample.random in
  exists s w' r,
    session_findById 2 (w_db w) = Some s
    /\ ~ (w_now w < session_expiresAt s)%Z
    /\ refreshSession (C := Sample.collaborators) 2 w = (w', Ok (Some r))
    /\ session_findById 8 (w_db w')
       = Some (mkSession 8 1 "rr" "r" None None (1000 + SEVEN_DAYS)).
Proof.
  eexists; eexists; eexists.
  split; [reflexivity|].
  split; [simpl; lia|].
  split; vm_compute; reflexivity.
Qed.

Lemma refresh_only_unexpired_witness :
  refreshSession (C := Sample.collaborators) 2
                 (calm (Sample.store true) 1001 Sample.random)
  = (calm (Sample.store true) 1001 Sample.random, Ok None).
Proof.
  apply (proj2 (refresh_only_unexpired
                  (C := Sample.collaborators) 2
                  (calm (Sample.store true) 1001 Sample.random))).
  right; exists (mkSession 2 1 "rr" "r" None None 1000).
  split; [reflexivity | simpl; lia].
Defined.

(** C4 at a session whose owner is deactivated: the session has not
    expired, [refreshSession] succeeds and returns a replacement,
    and [authenticate] refuses the replacement's token. *)
Theorem refresh_for_deactivated_owner :
  let w := calm (Sample.store false) 500 Sample.random in
  exists w' r,
    refreshSession (C := Sample.collaborators) 2 w = (w', Ok (Some r))
    /\ authenticate (C := Sample.collaborators) (Some (result_token r)) w'
       = (w', Err (App (UnauthorizedError "User account is deactivated"))).
Proof.
  eexists; eexists; split; vm_compute; reflexivity.
Qed.

End SessionFacts.

(* ================================================================== *)
(** * How the store evolves under the code *)

Module EvolutionFacts.

Lemma grows_refl d : grows d d.
Proof. split; [lia | intros s H; now left]. Qed.

Lemma grows_trans d1 d2 d3 : grows d1 d2 -> grows d2 d3 -> grows d1 d3.
Proof.
  intros [Hn1 Hs1] [Hn2 Hs2]; split; [lia|].
  intros s H; destruct (Hs2 s H) as [H2|H2]; [|right; lia].
  destruct (Hs1 s H2) as [H1|H1]; [now left | right; lia].
Qed.

(** A statement that leaves the sessions and the counter alone, or
    only moves the counter forward. *)
Lemma grows_same_sessions d d' :
  sessions d' = sessions d -> (nextId d <= nextId d')%nat -> grows d d'.
Proof. intros Hs Hn; split; [exact Hn | intros s H; left; now rewrite <- Hs]. Qed.

Lemma grows_session_create uid tok csrf ua ip t d :
  grows d (fst (session_create uid tok csrf ua ip t d)).
Proof.
  split; simpl; [lia|].
  intros s H; apply in_app_or in H as [H|[<-|[]]]; [now left | right; simpl; lia].
Qed.

Lemma grows_session_delete sid d : grows d (session_delete sid d).
Proof.
  split; simpl; [lia|]; intros s H; left; now apply filter_In in H as [H _].
Qed.

Lemma grows_session_deleteMany uid d : grows d (session_deleteMany uid d).
Proof.
  split; simpl; [lia|]; intros s H; left; now apply filter_In in H as [H _].
Qed.

Lemma createMany_sessions id hours d :
  sessions (operatingHour_createMany id hours d) = sessions d
  /\ (nextId d <= nextId (operatingHour_createMany id hours d))%nat.
Proof.
  revert d; induction hours as [|h rest IH]; intros d; simpl; [split; [reflexivity | lia]|].
  destruct (IH (with_nextId (S (nextId d))
                  (with_operatingHours
                     (fun l => l ++ [mkOperatingHour (nextId d) id h]) d)))
    as [Hs Hn].
  split; [rewrite Hs; reflexivity | simpl in Hn; lia].
Qed.

Lemma grows_createMany id hours d : grows d (operatingHour_createMany id hours d).
Proof.
  destruct (createMany_sessions id hours d) as [Hs Hn].
  now apply grows_same_sessions.
Qed.

Create HintDb grows.

#[local] Hint Resolve grows_refl grows_session_create grows_session_delete
  grows_session_deleteMany grows_createMany : grows.

Ltac same_sessions := apply grows_same_sessions; simpl; [reflexivity | lia].

Lemma Grows_ret {A} (a : A) : Grows (ret a).
Proof. intros w; apply grows_refl. Qed.

Lemma Grows_raise {A} e : Grows (@raise A e).
Proof. intros w; apply grows_refl. Qed.

Lemma Grows_fail {A} e : Grows (fun w : World => (w, @Err A e)).
Proof. intros w; apply grows_refl. Qed.

Lemma Grows_newDate : Grows newDate.
Proof. intros w; apply grows_refl. Qed.

Lemma Grows_randomHex : Grows randomHex.
Proof. intros w; apply grows_refl. Qed.

Lemma Grows_query {A} (q : Db -> A) : Grows (query q).
Proof. intros w; apply grows_refl. Qed.

Lemma Grows_bind {A B} (m : M A) (k : A -> M B) :
  Grows m -> (forall a, Grows (k a)) -> Grows (bind m k).
Proof.
  intros Hm Hk w; unfold bind.
  specialize (Hm w); destruct (m w) as [w1 [a|e]]; simpl in *; [|exact Hm].
  eapply grows_trans; [exact Hm | apply Hk].
Qed.

Lemma Grows_write {A} (stmt : Db -> Db * A) :
  (forall d, grows d (fst (stmt d))) -> Grows (write stmt).
Proof.
  intros H w; unfold write.
  specialize (H (w_db w)).
  destruct (w_faults w) as [|[|] fs]; destruct (stmt (w_db w)); simpl in *;
    auto using grows_refl.
Qed.

Lemma Grows_write_ (stmt : Db -> Db) :
  (forall d, grows d (stmt d)) -> Grows (write_ stmt).
Proof. intros H; apply Grows_write; exact H. Qed.

Lemma Grows_writeAll stmts :
  Forall (fun stmt => forall d, grows d (stmt d)) stmts -> Grows (writeAll stmts).
Proof.
  induction 1 as [|stmt rest Hs _ IH]; simpl; [apply Grows_ret|].
  apply Grows_bind; [now apply Grows_write_ | intros _; exact IH].
Qed.

Lemma Grows_transaction stmts :
  Forall (fun stmt => forall d, grows d (stmt d)) stmts -> Grows (transaction stmts).
Proof.
  intros H w; unfold transaction.
  pose proof (Grows_writeAll stmts H w) as G.
  destruct (writeAll stmts w) as [w1 [[]|e]]; simpl in *; [exact G | apply grows_refl].
Qed.

Lemma Grows_createAuditLog uid action resource rid req :
  Grows (createAuditLog uid action resource rid req).
Proof. apply Grows_write; intros d; same_sessions. Qed.

Lemma Grows_parse {A} (body : option A) : Grows (parse body).
Proof. destruct body; [apply Grows_ret | apply Grows_fail]. Qed.

#[local] Hint Resolve Grows_ret Grows_raise Grows_fail Grows_newDate Grows_randomHex
  Grows_query Grows_createAuditLog Grows_parse : grows.

(** Breaks a computation of the service into its calls. *)
Ltac grows_step :=
  match goal with
  | |- Grows (bind _ _) => apply Grows_bind; [|intros ?]
  | |- Grows (write_ _) => apply Grows_write_; intros ?
  | |- Grows (write _) => apply Grows_write; intros ?
  | |- Grows (transaction _) => apply Grows_transaction
  | |- Forall _ (_ :: _) => apply Forall_cons; [intros ?|]
  | |- Forall _ [] => apply Forall_nil
  | |- Grows (match ?x with _ => _ end) => destruct x
  | |- Grows (if ?b then _ else _) => destruct b
  | |- Grows _ => solve [auto with grows]
  | |- grows _ _ => solve [auto with grows | same_sessions]
  end.

Section WithCollaborators.
Context {C : Collaborators}.

Lemma Grows_createSession uid req : Grows (createSession uid req).
Proof. unfold createSession; repeat grows_step. Qed.

#[local] Hint Resolve Grows_createSession : grows.

Lemma Grows_register input req : Grows (register input req).
Proof. unfold register; repeat grows_step. Qed.

Lemma Grows_login input req : Grows (login input req).
Proof. unfold login; repeat grows_step. Qed.

Lemma Grows_logout sid req : Grows (logout sid req).
Proof. unfold logout; repeat grows_step. Qed.

Lemma Grows_changePassword uid input req : Grows (changePassword uid input req).
Proof. unfold changePassword; repeat grows_step. Qed.

Lemma Grows_refreshSession sid : Grows (refreshSession sid).
Proof. unfold refreshSession; repeat grows_step. Qed.

Lemma Grows_replaceHours id body : Grows (replaceHours id body).
Proof. unfold replaceHours; repeat grows_step. Qed.

Lemma Grows_recordConsent uid body req : Grows (recordConsent uid body req).
Proof. unfold recordConsent; repeat grows_step. Qed.

Lemma step_grows w w' : step w w' -> grows (w_db w) (w_db w').
Proof.
  destruct 1;
    first [ apply Grows_register | apply Grows_login | apply Grows_logout
          | apply Grows_changePassword | apply Grows_refreshSession
          | apply Grows_replaceHours | apply Grows_recordConsent
          | apply grows_refl ].
Qed.

Lemma steps_grows w w' : steps w w' -> grows (w_db w) (w_db w').
Proof.
  induction 1 as [|w1 w2 w3 H _ IH]; [apply grows_refl|].
  apply (grows_trans _ (w_db w2)); [apply step_grows; exact H | exact IH].
Qed.

End WithCollaborators.

(** Once gone, a session identifier stays without a row. *)
Lemma gone_grows sid d d' : gone sid d -> grows d d' -> gone sid d'.
Proof.
  intros [Hnone Hlt] [Hn Hs]; split; [|lia].
  unfold session_findById in *.
  destruct (find _ (sessions d')) as [s|] eqn:E; [|reflexivity].
  apply find_some in E as [Hin Hid]; apply Nat.eqb_eq in Hid.
  destruct (Hs s Hin) as [Hold|Hnew]; [|lia].
  apply (find_none _ _ Hnone) in Hold; apply Nat.eqb_neq in Hold; contradiction.
Qed.


End EvolutionFacts.

(* ================================================================== *)
(** * Rotation of a session by refresh *)

Module RotationFacts.
Import SessionFacts EvolutionFacts.

Lemma find_filter_out {A} (f : A -> bool) (l : list A) :
  find f (filter (fun x => negb (f x)) l) = None.
Proof.
  induction l as [|a l IH]; simpl; [reflexivity|].
  destruct (f a) eqn:E; simpl; [exact IH | now rewrite E].
Qed.


Lemma found_session_id sid d s :
  session_findById sid d = Some s -> In s (sessions d) /\ session_id s = sid.
Proof.
  intros H; apply find_some in H as [Hin Hid]; split; [exact Hin|].
  now apply Nat.eqb_eq.
Qed.

Section WithCollaborators.
Context {C : Collaborators}.

(** After a successful refresh the old identifier has no row. *)
Lemma refresh_old_gone sid w w' r :
  sessionsFresh (w_db w) ->
  refreshSession sid w = (w', Ok (Some r)) ->
  gone sid (w_db w').
Proof.
  intros Hfresh H.
  apply refreshSession_some in H as (s & u & Hs & _ & _ & _ & Hdb & _).
  apply found_session_id in Hs as [Hin Hid].
  specialize (Hfresh s Hin).
  rewrite Hdb; split; simpl; [|lia].
  unfold session_findById; simpl; apply find_filter_out.
Qed.

(** X29: a refreshed session is refused for good: after a
    successful [refreshSession], whatever the system does next and
    whenever, a credential that refers to the old identifier is
    answered Unauthenticated. *)
Lemma old_session_refused sid w w' w'' r cookie :
  sessionsFresh (w_db w) ->
  refreshSession sid w = (w', Ok (Some r)) ->
  steps w' w'' ->
  (forall token p, cookie = Some token ->
                   jwt_verify token (w_now w'') = Some p -> jwt_sessionId p = sid) ->
  exists msg, authenticate cookie w'' = (w'', Err (App (UnauthorizedError msg))).
Proof.
  intros Hfresh Href Hsteps Hrefers.
  apply authenticate_no_row; intros token p Hc Hv.
  rewrite (Hrefers token p Hc Hv).
  apply (gone_grows sid (w_db w')); [|now apply steps_grows].
  eapply refresh_old_gone; eassumption.
Qed.



End WithCollaborators.

End RotationFacts.

(* ================================================================== *)
(** * The auth service: login and register *)

Module ServiceFacts.
Import SessionFacts.

Section WithCollaborators.
Context {C : Collaborators}.

Lemma login_unknown_user input req w :
  user_findByEmail (Js.toLowerCase (login_email input)) (w_db w) = None ->
  login input req w = (w, Err (App (UnauthorizedError "Invalid email or password"))).
Proof. intros H; unfold login; run_unfold; now rewrite H. Qed.

Lemma login_bad_password input req w :
  login_verification input (w_db w) = Some false ->
  login input req w = (w, Err (App (UnauthorizedError "Invalid email or password"))).
Proof.
  unfold login_verification, login; run_unfold.
  destruct (user_findByEmail _ _) as [u|]; [|discriminate].
  destruct (negb (user_isActive u)); [discriminate|].
  intros H; injection H as ->; reflexivity.
Qed.

(** C7: a login whose email matches no user and a login whose
    user exists but whose password verification fails throw the
    same error, with the same message text, and the two responses
    of [POST /auth/login] are equal: nothing the caller sees tells
    the two runs apart. *)
Theorem login_failures_indistinguishable
        (inputA inputB : LoginInput) (reqA reqB : option Request) (wA wB : World) :
  user_findByEmail (Js.toLowerCase (login_email inputA)) (w_db wA) = None ->
  login_verification inputB (w_db wB) = Some false ->
  exists eA eB,
    snd (login inputA reqA wA) = Err (App eA)
    /\ snd (login inputB reqB wB) = Err (App eB)
    /\ message eA = message eB
    /\ isUnauthenticated (snd (login inputA reqA wA)) = true
    /\ isUnauthenticated (snd (login inputB reqB wB)) = true
    /\ snd (postLogin (Some inputA) reqA wA) = snd (postLogin (Some inputB) reqB wB).
Proof.
  intros HA HB.
  exists (UnauthorizedError "Invalid email or password"),
         (UnauthorizedError "Invalid email or password").
  unfold postLogin, route, parse; run_unfold.
  rewrite (login_unknown_user inputA reqA wA HA).
  rewrite (login_bad_password inputB reqB wB HB).
  repeat split.
Qed.

(** [register] on a store that accepts its writes, holds no user
    with the email and has no role named ["consumer"]. *)
Lemma register_no_consumer input req w :
  w_faults w = [] ->
  user_findByEmail (Js.toLowerCase (reg_email input)) (w_db w) = None ->
  role_findByName "consumer" (w_db w) = None ->
  let d := w_db w in
  let uid := nextId d in
  let user := mkUser uid (Js.toLowerCase (reg_email input))
                     (hashPassword (reg_password input)) true None in
  let profile := mkProfile (S uid) uid (reg_firstName input) (reg_lastName input) in
  let session := mkSession (S (S uid)) uid (w_random w (S (w_drawn w)))
                           (w_random w (w_drawn w))
                           (reqField req_userAgent req) (reqField req_ip req)
                           (w_now w + SEVEN_DAYS)%Z in
  exists w',
    register input req w
    = (w', Ok (mkAuthResult uid (Js.toLowerCase (reg_email input))
                            (jwt_sign (mkPayload uid (S (S uid))) (w_now w))
                            (w_random w (w_drawn w))
                            (w_now w + SEVEN_DAYS)%Z))
    /\ users (w_db w') = users d ++ [user]
    /\ profiles (w_db w') = profiles d ++ [profile]
    /\ sessions (w_db w') = sessions d ++ [session]
    /\ roleAssignments (w_db w') = roleAssignments d.
Proof.
  intros Hf He Hr; unfold register, createSession, createAuditLog.
  run_unfold; rewrite He; simpl.
  rewrite Hf; simpl; unfold role_findByName; simpl.
  unfold role_findByName in Hr; rewrite Hr; simpl.
  repeat (rewrite Hf; simpl).
  eexists; split; [reflexivity|]; simpl; repeat split.
Qed.

(** C10: when no role named ["consumer"] exists (and the email is
    not yet registered, the store accepting its writes),
    [register] returns its success result: the user, the profile
    and the session have been created, no role assignment has
    been written and the new user holds none; nothing is thrown
    for the missing role. *)
Theorem register_without_consumer_role input req w :
  w_faults w = [] ->
  assignmentsBound (w_db w) ->
  user_findByEmail (Js.toLowerCase (reg_email input)) (w_db w) = None ->
  role_findByName "consumer" (w_db w) = None ->
  exists w' r,
    register input req w = (w', Ok r)
    /\ result_userEmail r = Js.toLowerCase (reg_email input)
    /\ (exists u, In u (users (w_db w'))
                  /\ user_id u = result_userId r
                  /\ user_email u = result_userEmail r)
    /\ (exists p, In p (profiles (w_db w'))
                  /\ profile_userId p = result_userId r)
    /\ (exists s, In s (sessions (w_db w'))
                  /\ session_userId s = result_userId r
                  /\ session_csrfToken s = result_csrfToken r
                  /\ session_expiresAt s = result_expiresAt r)
    /\ roleAssignments (w_db w') = roleAssignments (w_db w)
    /\ roleAssignments_ofUser (result_userId r) (w_db w') = [].
Proof.
  intros Hf Hb He Hr.
  destruct (register_no_consumer input req w Hf He Hr)
    as (w' & Hreg & Hu & Hp & Hs & Hra).
  eexists; eexists; split; [exact Hreg|]; simpl.
  split; [reflexivity|].
  split; [eexists; split; [rewrite Hu; apply in_or_app; right; now left|];
          split; reflexivity|].
  split; [eexists; split; [rewrite Hp; apply in_or_app; right; now left|];
          reflexivity|].
  split; [eexists; split; [rewrite Hs; apply in_or_app; right; now left|];
          repeat split|].
  split; [exact Hra|].
  unfold roleAssignments_ofUser; rewrite Hra.
  destruct (filter _ _) as [|ra l] eqn:E; [reflexivity|].
  assert (Hin : In ra (ra :: l)) by now left.
  rewrite <- E in Hin; apply filter_In in Hin as [Hin Hid].
  apply Nat.eqb_eq in Hid; specialize (Hb ra Hin); lia.
Qed.

End WithCollaborators.

Lemma login_failures_indistinguishable_witness :
  exists eA eB,
    snd (login (C := Sample.collaborators) (mkLoginInput "nobody@b.com" "x") None
               (calm emptyDb 100 Sample.random)) = Err (App eA)
    /\ snd (login (C := Sample.collaborators) (mkLoginInput "A@B.com" "wrong") None
                  (calm (Sample.store true) 200 Sample.random)) = Err (App eB)
    /\ message eA = message eB.
Proof.
  destruct (login_failures_indistinguishable
              (C := Sample.collaborators)
              (mkLoginInput "nobody@b.com" "x") (mkLoginInput "A@B.com" "wrong")
              None None
              (calm emptyDb 100 Sample.random)
              (calm (Sample.store true) 200 Sample.random)
              eq_refl eq_refl)
    as (eA & eB & HA & HB & Hm & _).
  exists eA, eB; repeat split; assumption.
Defined.

(** A deactivated account is answered before its password is
    looked at, with a message of its own. *)
Example login_deactivated :
  login_verification (C := Sample.collaborators) (mkLoginInput "a@b.com" "wrong")
                     (Sample.store false) = None
  /\ snd (login (C := Sample.collaborators) (mkLoginInput "a@b.com" "wrong") None
                (calm (Sample.store false) 200 Sample.random))
     = Err (App (UnauthorizedError "Account is deactivated")).
Proof. split; reflexivity. Qed.

Lemma assignmentsBound_sample active : assignmentsBound (Sample.store active).
Proof. intros ra []. Qed.

Lemma register_without_consumer_role_witness :
  exists w' r,
    register (C := Sample.collaborators)
             (mkRegisterInput "New@User.com" "Secret123!" (Some "New") None) None
             (calm (Sample.store true) 100 Sample.random) = (w', Ok r)
    /\ result_userEmail r = "new@user.com"
    /\ roleAssignments_ofUser (result_userId r) (w_db w') = [].
Proof.
  destruct (register_without_consumer_role
              (C := Sample.collaborators)
              (mkRegisterInput "New@User.com" "Secret123!" (Some "New") None) None
              (calm (Sample.store true) 100 Sample.random)
              eq_refl (assignmentsBound_sample true) eq_refl eq_refl)
    as (w' & r & Hreg & Hemail & _ & _ & _ & _ & Hnone).
  exists w', r; repeat split; assumption.
Defined.

End ServiceFacts.

(* ================================================================== *)
(** * Groups of writes and their atomicity *)

Module AtomicityFacts.
Import SessionFacts.

Lemma writeAll_ok stmts w w' :
  writeAll stmts w = (w', Ok tt) -> w_db w' = applyAll stmts (w_db w).
Proof.
  revert w; induction stmts as [|stmt rest IH]; intros w; simpl.
  - unfold ret; intros H; now injection H as <-.
  - unfold bind, write_.
    destruct (write _ w) as [w1 [[]|e]] eqn:E; [|discriminate].
    apply write_ok in E as (Hd & _); simpl in Hd.
    intros H; apply IH in H; now rewrite H, Hd.
Qed.

(** A [$transaction] leaves the store with the whole group applied
    when it returns, and as it found it when it throws. *)
Lemma transaction_outcome stmts w :
  (snd (transaction stmts w) = Ok tt
   /\ w_db (fst (transaction stmts w)) = applyAll stmts (w_db w))
  \/ ((exists e, snd (transaction stmts w) = Err e)
      /\ w_db (fst (transaction stmts w)) = w_db w).
Proof.
  unfold transaction.
  destruct (writeAll stmts w) as [w1 [[]|e]] eqn:E; simpl.
  - left; split; [reflexivity | now apply writeAll_ok].
  - right; split; [now exists e | reflexivity].
Qed.

Lemma transaction_allOrNothing stmts w :
  allOrNothing stmts (w_db w) (w_db (fst (transaction stmts w))).
Proof.
  destruct (transaction_outcome stmts w) as [[_ H]|[_ H]]; [now left | now right].
Qed.

Section WithCollaborators.
Context {C : Collaborators}.

(** X27: a password change is all or nothing, whichever writes the
    store rejects: after [changePassword] either the new credential
    is stored and the user's sessions are deleted, or users and
    sessions are as before.  (The audit row written after the
    transaction touches neither table.) *)
Lemma passwordChange_allOrNothing uid input req w :
  let group := passwordGroup uid (hashPassword (newPassword input)) in
  let d := w_db w in
  let d' := w_db (fst (changePassword uid input req w)) in
  (users d' = users (applyAll group d) /\ sessions d' = sessions (applyAll group d))
  \/ (users d' = users d /\ sessions d' = sessions d).
Proof.
  intros group d d'; subst d d'.
  destruct (changePassword uid input req w) as [w' r] eqn:E; simpl.
  unfold changePassword, createAuditLog in E.
  unfold bind at 1, query at 1 in E; simpl in E.
  destruct (user_findById uid (w_db w)) as [u|];
    [|injection E as <- _; right; split; reflexivity].
  destruct (negb _); [injection E as <- _; right; split; reflexivity|].
  unfold bind in E.
  destruct (transaction_outcome group w) as [[Hok Hdb]|[[e He] Hdb]];
    unfold group, passwordGroup in *;
    destruct (transaction _ w) as [w1 r1]; simpl in Hdb.
  - simpl in Hok; subst r1; left.
    match type of E with context [write ?st w1] =>
      destruct (write st w1) as [w2 [[]|e]] eqn:E2 end.
    + apply write_ok in E2 as (Hd & _); injection E as <- _.
      rewrite Hd; simpl; rewrite Hdb; split; reflexivity.
    + injection E as <- _.
      unfold write in E2; destruct (w_faults w1) as [|[|] fs]; simpl in E2;
        try discriminate; injection E2 as <- _; simpl; rewrite Hdb;
        split; reflexivity.
  - simpl in He; subst r1; injection E as <- _.
    right; rewrite Hdb; split; reflexivity.
Qed.

(** X28: replacing the operating hours is all or nothing,
    whichever writes the store rejects: after the handler the old
    rows are deleted and the new ones created, or the store is as
    before. *)
Lemma hoursReplace_allOrNothing id hours w :
  allOrNothing (hoursGroup id hours) (w_db w)
               (w_db (fst (replaceHours id (Some hours) w))).
Proof.
  unfold replaceHours, parse. unfold bind at 1, ret at 1; simpl.
  unfold bind at 1.
  pose proof (transaction_allOrNothing (hoursGroup id hours) w) as H.
  unfold hoursGroup in *.
  destruct (transaction _ w) as [w1 [[]|e]]; simpl in *; exact H.
Qed.

End WithCollaborators.

(** C3 at the consent update: the profile holds a consent of type
    ["marketing"]; the store accepts the [updateMany] that revokes
    it and rejects the [create] that follows.  The handler throws,
    and the store is left with the old consent revoked and no new
    one: neither both writes nor none. *)
Theorem consent_update_torn :
  let input := mkConsentInput "marketing" false "v2" in
  let w := mkWorld (Sample.store true) 20 [false; true] Sample.random 0 in
  let after := w_db (fst (recordConsent 1 (Some input) None w)) in
  snd (recordConsent 1 (Some input) None w)
  = Err storeRejected
  /\ consents after = [mkConsent 4 3 "marketing" true 10 (Some 20%Z) "v1" None]
  /\ consents_active 3 "marketing" after = []
  /\ ~ allOrNothing (consentGroup 3 input 20 None) (w_db w) after.
Proof.
  repeat split; try reflexivity.
  intros [H|H]; vm_compute in H; discriminate H.
Qed.

End AtomicityFacts.

(* ================================================================== *)
(** * The credential cookie on failing responses *)

Module CookieFacts.
Import SessionFacts.

Section WithCollaborators.
Context {C : Collaborators}.

Lemma errorHandler_cookies err res :
  resp_cookies (errorHandler err res) = resp_cookies res.
Proof. destruct err; reflexivity. Qed.

(** The response to anything thrown carries no cookie operation. *)
Lemma route_thrown_cookies (handler : M Response) w e :
  snd (handler w) = Err e ->
  snd (route handler w) = errorHandler e res0
  /\ resp_cookies (snd (route handler w)) = [].
Proof.
  unfold route; destruct (handler w) as [w' [res|e']]; simpl; [discriminate|].
  intros H; injection H as ->; split; [reflexivity | apply errorHandler_cookies].
Qed.

Lemma route_returned (handler : M Response) w res :
  snd (handler w) = Ok res -> snd (route handler w) = res.
Proof.
  unfold route; destruct (handler w) as [w' [res'|e']]; simpl; [|discriminate].
  now intros H; injection H as ->.
Qed.

Lemma bind_ok {A B} (m : M A) (k : A -> M B) w w' b :
  bind m k w = (w', Ok b) ->
  exists w1 a, m w = (w1, Ok a) /\ k a w1 = (w', Ok b).
Proof.
  unfold bind; destruct (m w) as [w1 [a|e]]; [|discriminate].
  intros H; now exists w1, a.
Qed.

(** C8, amended: the cookie is cleared on a failing response only
    by the handler of [POST /auth/refresh] when the refresh
    returned null (its 401 [SESSION_EXPIRED] answer).  What the
    error handler renders for a thrown [UnauthorizedError] (401)
    or [ForbiddenError] (403) carries no cookie operation: the
    cookie stays in place in both cases. *)
Theorem cookie_cleared_only_on_null_refresh :
  (forall (handler : M Response) w msg,
      snd (handler w) = Err (App (UnauthorizedError msg)) ->
      snd (route handler w) = mkResponse 401 [] (Some (Failure "UNAUTHORIZED" msg))
      /\ clearsCookie "auth_token" (snd (route handler w)) = false)
  /\ (forall (handler : M Response) w msg,
         snd (handler w) = Err (App (ForbiddenError msg)) ->
         snd (route handler w) = mkResponse 403 [] (Some (Failure "FORBIDDEN" msg))
         /\ clearsCookie "auth_token" (snd (route handler w)) = false)
  /\ (forall cookie dt w,
         clearsCookie "auth_token" (snd (postRefresh cookie dt w)) = true ->
         snd (postRefresh cookie dt w) = sessionExpired)
  /\ (forall cookie dt w w1 w2 ctx,
         authenticate cookie w = (w1, Ok ctx) ->
         refreshSession (au_sessionId (ctx_user ctx)) (fst (elapse dt w1))
         = (w2, Ok None) ->
         snd (postRefresh cookie dt w) = sessionExpired).
Proof.
  split; [|split; [|split]].
  - intros handler w msg H.
    destruct (route_thrown_cookies handler w _ H) as [-> _]; split; reflexivity.
  - intros handler w msg H.
    destruct (route_thrown_cookies handler w _ H) as [-> _]; split; reflexivity.
  - intros cookie dt w; unfold postRefresh.
    match goal with |- context [route ?h w] => set (handler := h) end.
    destruct (handler w) as [w' [res|e]] eqn:E.
    + rewrite (route_returned handler w res) by now rewrite E.
      subst handler.
      apply bind_ok in E as (w1 & ctx & _ & E).
      apply bind_ok in E as (w2 & [] & _ & E).
      apply bind_ok in E as (w3 & result & _ & E).
      destruct result as [r|]; unfold ret in E; injection E as _ <-;
        [discriminate | reflexivity].
    + destruct (route_thrown_cookies handler w e) as [_ Hc]; [now rewrite E|].
      unfold clearsCookie; rewrite Hc; discriminate.
  - intros cookie dt w w1 w2 ctx Ha Hr; unfold postRefresh.
    apply route_returned; unfold bind; rewrite Ha; simpl.
    simpl in Hr; rewrite Hr; reflexivity.
Qed.

End WithCollaborators.

(** C8, as stated, fails: a request to a protected route carries
    the cookie of a session that has expired; [authenticate]
    throws, the response is the 401 of the error handler, and
    nothing clears the cookie. *)
Lemma stale_cookie_not_cleared :
  let res := snd (putHours (C := Sample.collaborators) (Some "Juss") "truck" (Some [])
                           (calm (Sample.store true) 2000 Sample.random)) in
  res = mkResponse 401 [] (Some (Failure "UNAUTHORIZED" "Session expired or invalid"))
  /\ clearsCookie "auth_token" res = false.
Proof. split; reflexivity. Qed.

(** The session passes [authenticate] at the instant of its expiry
    and is expired one millisecond later, when the handler runs:
    this is the response that clears the cookie. *)
Lemma cookie_cleared_only_on_null_refresh_witness :
  snd (postRefresh (C := Sample.collaborators) (Some "Juss") 1
                   (calm (Sample.store true) 1000 Sample.random))
  = sessionExpired.
Proof.
  apply (proj1 (proj2 (proj2 (cookie_cleared_only_on_null_refresh
                                (C := Sample.collaborators))))).
  reflexivity.
Defined.

(** A Forbidden answer of a protected route: alice holds no role,
    so the permission gate of the route refuses her. *)
Example forbidden_keeps_cookie :
  snd (putHours (C := Sample.collaborators) (Some "Juss") "truck" (Some [])
                (calm (Sample.store true) 500 Sample.random))
  = mkResponse 403 [] (Some (Failure "FORBIDDEN" "Insufficient permissions")).
Proof. reflexivity. Qed.

End CookieFacts.

(* ================================================================== *)
(** * More on the gates of shared/middleware/auth.ts *)

Module GateMore.
Import Gate.

Lemma requirePermission_ok u checks :
  requirePermission checks (Some u) = Ok tt <-> hasPermission u checks = true.
Proof.
  unfold requirePermission; destruct (hasPermission u checks); split;
    (reflexivity || discriminate).
Qed.

(** X1: the requirements passed to one gate are alternatives: the
    gate built from two lists of requirements lets an identity pass
    exactly when the gate built from one of the lists does. *)
Theorem requirePermission_any_of (u : AuthenticatedUser) (cs1 cs2 : list PermissionCheck) :
  requirePermission (cs1 ++ cs2) (Some u) = Ok tt
  <-> requirePermission cs1 (Some u) = Ok tt \/ requirePermission cs2 (Some u) = Ok tt.
Proof.
  rewrite !requirePermission_ok; unfold hasPermission.
  rewrite existsb_app; apply orb_true_iff.
Qed.

(** X2: a requirement that names a permission and nothing else -- the
    only kind the routes of the application pass -- is satisfied
    exactly when some held role grants a permission of that name: in
    whatever organization the role is held and under whatever scope
    the permission is granted. *)
Theorem permission_only_requirement (u : AuthenticatedUser) (name : string) :
  requirePermission [mkCheck name None None] (Some u) = Ok tt
  <-> exists ra perm, In ra (au_roles u) /\ In perm (ra_permissions ra)
                      /\ permission_name (perm_permission perm) = name.
Proof.
  rewrite requirePermission_ok; unfold hasPermission; simpl; rewrite orb_false_r.
  rewrite existsb_exists; split.
  - intros (ra & Hra & H); unfold roleSatisfies in H; simpl in H.
    apply existsb_exists in H as (perm & Hperm & H).
    unfold permMatches in H; simpl in H; rewrite andb_true_r in H.
    exists ra, perm; repeat split; try assumption; now apply String.eqb_eq.
  - intros (ra & perm & Hra & Hperm & Hname).
    exists ra; split; [exact Hra|]; unfold roleSatisfies; simpl.
    apply existsb_exists; exists perm; split; [exact Hperm|].
    unfold permMatches; simpl; rewrite andb_true_r; now apply String.eqb_eq.
Qed.

(** X3: holding more never takes access away: an identity that holds
    every role assignment of another passes every gate the other
    passes. *)
Theorem requirePermission_more_roles (u u' : AuthenticatedUser)
        (checks : list PermissionCheck) :
  (forall ra, In ra (au_roles u) -> In ra (au_roles u')) ->
  requirePermission checks (Some u) = Ok tt ->
  requirePermission checks (Some u') = Ok tt.
Proof.
  intros Hsub; rewrite !requirePermission_ok; unfold hasPermission.
  rewrite !existsb_exists; intros (check & Hc & H); exists check; split; [exact Hc|].
  apply existsb_exists in H as (ra & Hra & H); apply existsb_exists.
  exists ra; split; [now apply Hsub | exact H].
Qed.

Lemma requirePermission_more_roles_witness :
  requirePermission [mkCheck "menu.update" None (Some "org1")]
                    (Some (mkAuthUser 1 "a@b.com" 2
                             (mkHeldRole Sample.manager None []
                              :: au_roles (Sample.identity (Some "org1") None))))
  = Ok tt.
Proof.
  apply (requirePermission_more_roles (Sample.identity (Some "org1") None)).
  - intros ra H; now right.
  - reflexivity.
Defined.

(** X4: [requireRole] looks at role names only: it lets the identity
    pass exactly when the name of one of its held roles is among the
    names given, whatever the organization of the assignment and
    whatever the role grants; otherwise it answers Forbidden. *)
Theorem requireRole_by_name (u : AuthenticatedUser) (roleNames : list string) :
  (requireRole roleNames (Some u) = Ok tt
   <-> exists ra, In ra (au_roles u) /\ In (role_name (ra_role ra)) roleNames)
  /\ (requireRole roleNames (Some u) = Ok tt
      \/ requireRole roleNames (Some u) = throw (ForbiddenError "Insufficient role")).
Proof.
  unfold requireRole; split.
  - destruct (existsb _ (au_roles u)) eqn:E; split; try discriminate; try reflexivity.
    + intros _; apply existsb_exists in E as (ra & Hra & H).
      apply existsb_exists in H as (n & Hn & H); apply String.eqb_eq in H.
      exists ra; split; [exact Hra | now rewrite H].
    + intros (ra & Hra & Hn); exfalso.
      assert (existsb (fun ra => existsb (String.eqb (role_name (ra_role ra))) roleNames)
                      (au_roles u) = true); [|congruence].
      apply existsb_exists; exists ra; split; [exact Hra|].
      apply existsb_exists; exists (role_name (ra_role ra)); split;
        [exact Hn | apply String.eqb_refl].
  - destruct (existsb _ (au_roles u)); [now left | now right].
Qed.

(** X5: [verifyCsrf] lets a request pass exactly when the header is
    present, not empty, and equal to the token of the session; in
    every other case -- no header, an empty header, a different
    token, or no session token because [authenticate] did not run --
    it answers Forbidden. *)
Theorem verifyCsrf_exact (csrfHeader csrfToken : option string) :
  (verifyCsrf csrfHeader csrfToken = Ok tt
   <-> exists h, csrfHeader = Some h /\ h <> "" /\ csrfToken = Some h)
  /\ (verifyCsrf csrfHeader csrfToken = Ok tt
      \/ verifyCsrf csrfHeader csrfToken = throw (ForbiddenError "Invalid CSRF token")).
Proof.
  unfold verifyCsrf; split.
  - destruct csrfHeader as [h|]; simpl.
    + destruct (String.eqb_spec h ""); simpl.
      * split; [discriminate|]; intros (h' & H & Hne & _); congruence.
      * destruct csrfToken as [t|]; simpl.
        -- destruct (String.eqb_spec h t); simpl.
           ++ split; [|reflexivity].
              intros _; exists h; subst; repeat split; assumption.
           ++ split; [discriminate|]; intros (h' & H & _ & Ht); congruence.
        -- split; [discriminate|]; intros (h' & _ & _ & Ht); discriminate.
    + split; [discriminate|]; intros (h' & H & _); discriminate.
  - destruct (_ || _); [now right | now left].
Qed.

End GateMore.

(* ================================================================== *)
(** * More on authenticate *)

Module AuthnMore.
Import SessionFacts.

Section WithCollaborators.
Context {C : Collaborators}.

(** The three ways [authenticate] can end. *)
Lemma authenticate_cases (cookie : option string) (w : World) :
  (exists msg, authenticate cookie w = (w, Err (App (UnauthorizedError msg))))
  \/ (exists token p s,
         cookie = Some token /\ jwt_verify token (w_now w) = Some p
         /\ session_findById (jwt_sessionId p) (w_db w) = Some s
         /\ user_findById (session_userId s) (w_db w) = None
         /\ authenticate cookie w = (w, Err noUserRow))
  \/ (exists token p s u,
         cookie = Some token /\ token <> ""
         /\ jwt_verify token (w_now w) = Some p
         /\ session_findById (jwt_sessionId p) (w_db w) = Some s
         /\ (w_now w <= session_expiresAt s)%Z
         /\ user_findById (session_userId s) (w_db w) = Some u
         /\ user_isActive u = true
         /\ authenticate cookie w
            = (w, Ok (mkContext
                        (mkAuthUser (user_id u) (user_email u) (session_id s)
                                    (heldRoles (user_id u) (w_db w)))
                        s (session_csrfToken s)))).
Proof.
  unfold authenticate.
  destruct cookie as [token|]; [|left; eexists; reflexivity].
  destruct (negb (Js.truthy (Some token))) eqn:Htruthy; [left; eexists; reflexivity|].
  run_unfold.
  destruct (jwt_verify token (w_now w)) as [p|] eqn:Hverify;
    [|left; eexists; reflexivity].
  destruct (session_findById (jwt_sessionId p) (w_db w)) as [s|] eqn:Hsession;
    [|left; eexists; reflexivity].
  destruct (session_expiresAt s <? w_now w)%Z eqn:Hexpired;
    [left; eexists; reflexivity|].
  destruct (user_findById (session_userId s) (w_db w)) as [u|] eqn:Howner.
  - destruct (user_isActive u) eqn:Hactive; simpl; [|left; eexists; reflexivity].
    right; right; exists token, p, s, u; repeat split; try assumption.
    + apply negb_false_iff in Htruthy; simpl in Htruthy.
      apply negb_true_iff, String.eqb_neq in Htruthy; exact Htruthy.
    + now apply Z.ltb_ge.
  - right; left; exists token, p, s; repeat split; assumption.
Qed.

(** X6: [authenticate] only reads: whatever the cookie and whatever
    the outcome, the store, the clock and everything else are as they
    were before the call. *)
Theorem authenticate_reads_only (cookie : option string) (w : World) :
  fst (authenticate cookie w) = w.
Proof.
  destruct (authenticate_cases cookie w)
    as [[msg H]|[(t & p & s & _ & _ & _ & _ & H)|(t & p & s & u & H)]];
    [| |decompose [and] H; clear H];
    match goal with H : authenticate _ _ = _ |- _ => now rewrite H end.
Qed.

(** X7: [authenticate] accepts only a live session: when it returns,
    the cookie held a non-empty token that verified, the token named
    a session row whose expiry is not before now and whose owner is
    active, and the identity attached to the request is the one of
    that owner and that session: the owner's id and email, the
    session's id and CSRF token, and the owner's held roles. *)
Theorem authenticate_accepts_only_live (cookie : option string) (w w' : World)
        (ctx : AuthContext) :
  authenticate cookie w = (w', Ok ctx) ->
  exists token p u,
    cookie = Some token /\ token <> ""
    /\ jwt_verify token (w_now w) = Some p
    /\ session_findById (jwt_sessionId p) (w_db w) = Some (ctx_session ctx)
    /\ (w_now w <= session_expiresAt (ctx_session ctx))%Z
    /\ user_findById (session_userId (ctx_session ctx)) (w_db w) = Some u
    /\ user_isActive u = true
    /\ ctx_user ctx = mkAuthUser (user_id u) (user_email u)
                                 (session_id (ctx_session ctx))
                                 (heldRoles (user_id u) (w_db w))
    /\ ctx_csrfToken ctx = session_csrfToken (ctx_session ctx).
Proof.
  destruct (authenticate_cases cookie w)
    as [[msg H]|[(t & p & s & _ & _ & _ & _ & H)|(t & p & s & u & H)]];
    try (rewrite H; discriminate).
  destruct H as (Hc & Ht & Hv & Hs & Hle & Hu & Ha & H).
  rewrite H; intros E; injection E as _ <-; simpl.
  exists t, p, u; repeat split; assumption.
Qed.


End WithCollaborators.

Lemma authenticate_accepts_only_live_witness :
  exists token p u,
    Some "Juss" = Some token /\ token <> ""
    /\ Sample.verify token 500 = Some p
    /\ session_findById (jwt_sessionId p) (Sample.store true)
       = Some (mkSession 2 1 "rr" "r" None None 1000)
    /\ (500 <= 1000)%Z
    /\ user_findById 1 (Sample.store true) = Some u
    /\ user_isActive u = true
    /\ mkAuthUser 1 "a@b.com" 2 [] = mkAuthUser (user_id u) (user_email u) 2
                                                (heldRoles (user_id u) (Sample.store true))
    /\ "r" = "r".
Proof.
  exact (authenticate_accepts_only_live
           (C := Sample.collaborators) (Some "Juss")
           (calm (Sample.store true) 500 Sample.random)
           (calm (Sample.store true) 500 Sample.random)
           (mkContext (mkAuthUser 1 "a@b.com" 2 [])
                      (mkSession 2 1 "rr" "r" None None 1000) "r")
           eq_refl).
Defined.






End AuthnMore.

(* ================================================================== *)
(** * The sample environment obeys the laws of its libraries *)

Module SampleFacts.





Lemma verify_hash pw :
  verifyPassword (Collaborators := Sample.collaborators) pw
                 (hashPassword (Collaborators := Sample.collaborators) pw) = true.
Proof. apply String.eqb_refl. Qed.

End SampleFacts.

(* ================================================================== *)
(** * More on the auth service *)

Module ServiceMore.
Import SessionFacts.

Lemma find_app_last {A} (f : A -> bool) (l : list A) (x : A) :
  find f l = None -> f x = true -> find f (l ++ [x]) = Some x.
Proof.
  intros Hl Hx; induction l as [|a l IH]; simpl in *; [now rewrite Hx|].
  destruct (f a); [discriminate | now apply IH].
Qed.

Lemma find_map_keep {A} (f : A -> bool) (g : A -> A) (l : list A) :
  (forall a, f (g a) = f a) -> find f (map g l) = option_map g (find f l).
Proof.
  intros H; induction l as [|a l IH]; simpl; [reflexivity|].
  rewrite H; destruct (f a); [reflexivity | exact IH].
Qed.

Section WithCollaborators.
Context {C : Collaborators}.

(** [register] for an email not yet in use, on a store that accepts
    its writes. *)
Lemma register_ok input req w :
  w_faults w = [] ->
  user_findByEmail (Js.toLowerCase (reg_email input)) (w_db w) = None ->
  let d := w_db w in
  let uid := nextId d in
  let email := Js.toLowerCase (reg_email input) in
  exists w',
    register input req w
    = (w', Ok (mkAuthResult uid email
                            (jwt_sign (mkPayload uid (S (S uid))) (w_now w))
                            (w_random w (w_drawn w))
                            (w_now w + SEVEN_DAYS)%Z))
    /\ users (w_db w')
       = users d ++ [mkUser uid email (hashPassword (reg_password input)) true None]
    /\ sessions (w_db w')
       = sessions d ++ [mkSession (S (S uid)) uid (w_random w (S (w_drawn w)))
                                  (w_random w (w_drawn w))
                                  (reqField req_userAgent req) (reqField req_ip req)
                                  (w_now w + SEVEN_DAYS)%Z]
    /\ roles (w_db w') = roles d
    /\ roleAssignments (w_db w')
       = roleAssignments d
         ++ match role_findByName "consumer" d with
            | Some r => [mkAssignment uid (role_id (row_role r)) None]
            | None => []
            end
    /\ w_faults w' = [] /\ w_now w' = w_now w.
Proof.
  intros Hf He; unfold register, createSession, createAuditLog.
  run_unfold; rewrite He; simpl.
  rewrite Hf; simpl; unfold role_findByName; simpl.
  destruct (find _ (roles (w_db w))) as [r|]; simpl;
    repeat (rewrite Hf; simpl);
    (eexists; split; [reflexivity|]; simpl; repeat split; try assumption;
     now rewrite ?app_nil_r).
Qed.

(** [login] with the right password of an active user, on a store
    that accepts its writes. *)
Lemma login_ok input req w u :
  w_faults w = [] ->
  user_findByEmail (Js.toLowerCase (login_email input)) (w_db w) = Some u ->
  user_isActive u = true ->
  verifyPassword (login_password input) (user_passwordHash u) = true ->
  exists w',
    login input req w
    = (w', Ok (mkAuthResult (user_id u) (user_email u)
                            (jwt_sign (mkPayload (user_id u) (nextId (w_db w))) (w_now w))
                            (w_random w (w_drawn w))
                            (w_now w + SEVEN_DAYS)%Z))
    /\ sessions (w_db w')
       = sessions (w_db w)
         ++ [mkSession (nextId (w_db w)) (user_id u) (w_random w (S (w_drawn w)))
                       (w_random w (w_drawn w))
                       (reqField req_userAgent req) (reqField req_ip req)
                       (w_now w + SEVEN_DAYS)%Z]
    /\ users (w_db w')
       = map (fun x => if (user_id x =? user_id u)%nat
                       then set_lastLoginAt (w_now w) x else x) (users (w_db w)).
Proof.
  intros Hf Hu Ha Hv; unfold login, createSession, createAuditLog.
  run_unfold; rewrite Hu, Ha, Hv; simpl.
  repeat (rewrite Hf; simpl).
  eexists; split; [reflexivity|]; simpl; split; reflexivity.
Qed.

(** X10: an email is registered once, whatever its casing: after a
    successful [register], a second [register] whose email differs
    from the first at most in the case of its letters throws
    [ConflictError] (409) and writes nothing. *)
Theorem register_twice_conflict input input' req req' w :
  w_faults w = [] ->
  user_findByEmail (Js.toLowerCase (reg_email input)) (w_db w) = None ->
  Js.toLowerCase (reg_email input') = Js.toLowerCase (reg_email input) ->
  exists w1 r1,
    register input req w = (w1, Ok r1)
    /\ register input' req' w1
       = (w1, Err (App (ConflictError "Email already registered"))).
Proof.
  intros Hf He Hcase.
  destruct (register_ok input req w Hf He) as (w1 & Hreg & Hu & _).
  eexists; eexists; split; [exact Hreg|].
  unfold register; run_unfold; rewrite Hcase.
  unfold user_findByEmail in *; rewrite Hu.
  rewrite (find_app_last _ _ _ He); [reflexivity|]; simpl; apply String.eqb_refl.
Qed.

(** X11: who has registered can log in: after a successful
    [register], [login] with the same password and the same email in
    any casing succeeds and returns the user that was created, given
    that the password helpers agree ([verifyPassword] accepts a
    password against its own [hashPassword]). *)
Theorem register_then_login input req req' email' w :
  w_faults w = [] ->
  user_findByEmail (Js.toLowerCase (reg_email input)) (w_db w) = None ->
  Js.toLowerCase email' = Js.toLowerCase (reg_email input) ->
  verifyPassword (reg_password input) (hashPassword (reg_password input)) = true ->
  exists w1 r1 w2 r2,
    register input req w = (w1, Ok r1)
    /\ login (mkLoginInput email' (reg_password input)) req' w1 = (w2, Ok r2)
    /\ result_userId r2 = result_userId r1
    /\ result_userEmail r2 = Js.toLowerCase (reg_email input).
Proof.
  intros Hf He Hcase Hv.
  destruct (register_ok input req w Hf He)
    as (w1 & Hreg & Hu & _ & _ & _ & Hf1 & _).
  set (user := mkUser (nextId (w_db w)) (Js.toLowerCase (reg_email input))
                      (hashPassword (reg_password input)) true None) in *.
  assert (Hfind : user_findByEmail
                    (Js.toLowerCase (login_email (mkLoginInput email' (reg_password input))))
                    (w_db w1) = Some user).
  { simpl; rewrite Hcase; unfold user_findByEmail in *; rewrite Hu.
    apply find_app_last; [exact He | simpl; apply String.eqb_refl]. }
  destruct (login_ok (mkLoginInput email' (reg_password input)) req' w1 user
                     Hf1 Hfind eq_refl Hv) as (w2 & Hlogin & _).
  eexists; eexists; eexists; eexists; split; [exact Hreg|].
  split; [exact Hlogin|]; split; reflexivity.
Qed.




(** X13: when the role [consumer] exists, the user created by
    [register] holds exactly that role, globally: the identity built
    for her by [authenticate] has one held role, the consumer role
    with a null organization and the grants of that role. *)
Theorem register_default_role input req w r :
  w_faults w = [] ->
  assignmentsBound (w_db w) ->
  user_findByEmail (Js.toLowerCase (reg_email input)) (w_db w) = None ->
  role_findByName "consumer" (w_db w) = Some r ->
  role_findById (role_id (row_role r)) (w_db w) = Some r ->
  exists w1 r1,
    register input req w = (w1, Ok r1)
    /\ heldRoles (result_userId r1) (w_db w1)
       = [mkHeldRole (row_role r) None (map grantOf (row_permissions r))].
Proof.
  intros Hf Hb He Hname Hid.
  destruct (register_ok input req w Hf He) as (w1 & Hreg & _ & _ & Hr & Hra & _).
  eexists; eexists; split; [exact Hreg|]; cbn [result_userId].
  rewrite Hname in Hra.
  unfold heldRoles, roleAssignments_ofUser; rewrite Hra, filter_app.
  assert (Hold : filter (fun ra => (ura_userId ra =? nextId (w_db w))%nat)
                        (roleAssignments (w_db w)) = []).
  { destruct (filter _ _) as [|ra l] eqn:E; [reflexivity|].
    assert (Hin : In ra (ra :: l)) by now left.
    rewrite <- E in Hin; apply filter_In in Hin as [Hin Heq].
    apply Nat.eqb_eq in Heq; specialize (Hb ra Hin); lia. }
  rewrite Hold; simpl; rewrite Nat.eqb_refl; simpl.
  unfold role_findById in *; rewrite Hr, Hid; reflexivity.
Qed.

End WithCollaborators.




Lemma assignmentsBound_seeded : assignmentsBound seeded.
Proof. intros ra [<-|[]]; simpl; lia. Qed.

Lemma register_default_role_witness :
  exists w1 r1,
    register (C := Sample.collaborators)
             (mkRegisterInput "New@User.com" "Secret123!" None None) None
             (calm seeded 100 Sample.random) = (w1, Ok r1)
    /\ heldRoles (result_userId r1) (w_db w1)
       = [mkHeldRole (mkRole 1 "consumer" "CONSUMER" true) None
                     [mkGranted (mkPermission 2 "menu.view") None;
                      mkGranted (mkPermission 3 "profile.manage.self") (Some "self")]].
Proof.
  exact (register_default_role
           (C := Sample.collaborators)
           (mkRegisterInput "New@User.com" "Secret123!" None None) None
           (calm seeded 100 Sample.random) consumer
           eq_refl assignmentsBound_seeded eq_refl eq_refl eq_refl).
Defined.

Lemma register_twice_conflict_witness :
  exists w1 r1,
    register (C := Sample.collaborators)
             (mkRegisterInput "New@User.com" "Secret123!" None None) None
             (calm (Sample.store true) 100 Sample.random) = (w1, Ok r1)
    /\ register (C := Sample.collaborators)
                (mkRegisterInput "NEW@user.COM" "other" None None) None w1
       = (w1, Err (App (ConflictError "Email already registered"))).
Proof.
  exact (register_twice_conflict
           (C := Sample.collaborators)
           (mkRegisterInput "New@User.com" "Secret123!" None None)
           (mkRegisterInput "NEW@user.COM" "other" None None) None None
           (calm (Sample.store true) 100 Sample.random)
           eq_refl eq_refl eq_refl).
Defined.

Lemma register_then_login_witness :
  exists w1 r1 w2 r2,
    register (C := Sample.collaborators)
             (mkRegisterInput "New@User.com" "Secret123!" None None) None
             (calm (Sample.store true) 100 Sample.random) = (w1, Ok r1)
    /\ login (C := Sample.collaborators)
             (mkLoginInput "new@USER.com" "Secret123!") None w1 = (w2, Ok r2)
    /\ result_userId r2 = result_userId r1
    /\ result_userEmail r2 = "new@user.com".
Proof.
  exact (register_then_login
           (C := Sample.collaborators)
           (mkRegisterInput "New@User.com" "Secret123!" None None) None None
           "new@USER.com"
           (calm (Sample.store true) 100 Sample.random)
           eq_refl eq_refl eq_refl eq_refl).
Defined.

End ServiceMore.

(* ================================================================== *)
(** * Logout, password change and refresh *)

Module LifecycleFacts.
Import SessionFacts AtomicityFacts CookieFacts ServiceMore.

Lemma writeAll_calm stmts w :
  w_faults w = [] -> writeAll stmts w = (with_db (applyAll stmts (w_db w)) w, Ok tt).
Proof.
  revert w; induction stmts as [|stmt rest IH]; intros w Hf; simpl.
  - unfold ret; destruct w; reflexivity.
  - unfold bind, write_, write; rewrite Hf; simpl.
    rewrite IH by exact Hf; reflexivity.
Qed.

Lemma transaction_calm stmts w :
  w_faults w = [] -> transaction stmts w = (with_db (applyAll stmts (w_db w)) w, Ok tt).
Proof. intros Hf; unfold transaction; now rewrite writeAll_calm. Qed.

Lemma filter_keeps_others {A} (f : A -> bool) (l : list A) (x : A) :
  f x = true -> (In x (filter f l) <-> In x l).
Proof. intros H; rewrite filter_In; tauto. Qed.

(** [logout] of a session without a row does nothing, whatever the
    state of the store. *)
Lemma logout_absent sid req w :
  session_findById sid (w_db w) = None -> logout sid req w = (w, Ok tt).
Proof. intros H; unfold logout; run_unfold; now rewrite H. Qed.

(** [logout] on a store that accepts its writes. *)
Lemma logout_calm sid req w :
  w_faults w = [] ->
  exists w',
    logout sid req w = (w', Ok tt)
    /\ sessions (w_db w') = filter (fun s => negb (session_id s =? sid)%nat)
                                   (sessions (w_db w))
    /\ users (w_db w') = users (w_db w)
    /\ w_faults w' = [].
Proof.
  intros Hf; unfold logout, createAuditLog; run_unfold.
  destruct (session_findById sid (w_db w)) as [s|] eqn:E.
  - repeat (rewrite Hf; simpl).
    eexists; split; [reflexivity|]; simpl; repeat split; exact Hf.
  - exists w; split; [reflexivity|]; split; [|split; [reflexivity | exact Hf]].
    symmetry; apply forallb_filter_id, forallb_forall; intros s Hs.
    apply (find_none _ _ E) in Hs; now rewrite Hs.
Qed.

Section WithCollaborators.
Context {C : Collaborators}.

(** X14: [logout] revokes the session and only that one: on a store
    that accepts its writes it returns normally, whether or not the
    session existed; afterwards the identifier has no row, and every
    other session row is there exactly if it was there before. *)
Theorem logout_revokes (sid : nat) (req : option Request) (w : World) :
  w_faults w = [] ->
  exists w',
    logout sid req w = (w', Ok tt)
    /\ session_findById sid (w_db w') = None
    /\ forall s, session_id s <> sid ->
                 (In s (sessions (w_db w')) <-> In s (sessions (w_db w))).
Proof.
  intros Hf; destruct (logout_calm sid req w Hf) as (w' & H & Hs & _).
  exists w'; split; [exact H|]; split.
  - unfold session_findById; rewrite Hs; apply RotationFacts.find_filter_out.
  - intros s Hne; rewrite Hs; apply filter_keeps_others.
    now apply negb_true_iff, Nat.eqb_neq.
Qed.

(** X15: [logout] is idempotent: once a session has been logged out,
    logging it out again returns normally and changes nothing, even
    if the store would by then reject every write. *)
Theorem logout_idempotent (sid : nat) (req req' : option Request)
        (fs : list bool) (w : World) :
  w_faults w = [] ->
  let w1 := with_faults fs (fst (logout sid req w)) in
  logout sid req' w1 = (w1, Ok tt).
Proof.
  intros Hf w1; apply logout_absent; subst w1; simpl.
  destruct (logout_calm sid req w Hf) as (w' & H & Hs & _); rewrite H; simpl.
  unfold session_findById; rewrite Hs; apply RotationFacts.find_filter_out.
Qed.

(** What a successful [changePassword] has done. *)
Lemma changePassword_some uid input req w w' :
  changePassword uid input req w = (w', Ok tt) ->
  exists u,
    user_findById uid (w_db w) = Some u
    /\ verifyPassword (currentPassword input) (user_passwordHash u) = true
    /\ sessions (w_db w') = sessions (session_deleteMany uid (w_db w))
    /\ users (w_db w')
       = users (user_update uid (set_passwordHash (hashPassword (newPassword input)))
                            (w_db w)).
Proof.
  unfold changePassword, createAuditLog.
  unfold bind at 1, query at 1; simpl.
  destruct (user_findById uid (w_db w)) as [u|]; [|discriminate].
  destruct (verifyPassword _ _) eqn:Hv; simpl; [|discriminate].
  intros H; apply bind_ok in H as (w1 & [] & Ht & Ha).
  apply write_ok in Ha as (Hd & _).
  destruct (transaction_outcome
              [user_update uid (set_passwordHash (hashPassword (newPassword input)));
               session_deleteMany uid] w) as [[_ Hdb]|[[e He] _]];
    [|rewrite Ht in He; discriminate].
  rewrite Ht in Hdb; simpl in Hdb.
  exists u; split; [reflexivity|]; split; [exact Hv|].
  split; rewrite Hd; simpl; rewrite Hdb; reflexivity.
Qed.

(** [changePassword] with the right current password, on a store
    that accepts its writes. *)
Lemma changePassword_calm uid input req w u :
  w_faults w = [] ->
  user_findById uid (w_db w) = Some u ->
  verifyPassword (currentPassword input) (user_passwordHash u) = true ->
  exists w',
    changePassword uid input req w = (w', Ok tt) /\ w_faults w' = []
    /\ w_now w' = w_now w.
Proof.
  intros Hf Hu Hv; unfold changePassword, createAuditLog.
  unfold bind at 1, query at 1; simpl; rewrite Hu, Hv; simpl.
  unfold bind; rewrite (transaction_calm _ w Hf).
  unfold write; simpl; rewrite Hf; simpl.
  eexists; split; [reflexivity|]; split; [exact Hf | reflexivity].
Qed.

(** [changePassword] refuses without writing: for a user id
    without a row it throws [NotFoundError] (404, "User not found"),
    and for a wrong current password [UnauthorizedError] (401,
    "Current password is incorrect"); in both cases the store is
    untouched, the credential as it was and every session in place. *)
Theorem changePassword_refusals (uid : nat) (input : ChangePasswordInput)
        (req : option Request) (w : World) :
  (user_findById uid (w_db w) = None ->
   changePassword uid input req w = (w, Err (App (NotFoundError "User"))))
  /\ (forall u, user_findById uid (w_db w) = Some u ->
                verifyPassword (currentPassword input) (user_passwordHash u) = false ->
                changePassword uid input req w
                = (w, Err (App (UnauthorizedError "Current password is incorrect")))).
Proof.
  split; [intros H | intros u H Hv]; unfold changePassword; run_unfold; rewrite H;
    [|rewrite Hv]; reflexivity.
Qed.

(** X17: a password change revokes every session of the user: when
    [changePassword] returns, no session row of that user is left,
    the sessions of other users are there exactly as before, and the
    user's row holds the hash of the new password. *)
Theorem changePassword_revokes_sessions (uid : nat) (input : ChangePasswordInput)
        (req : option Request) (w w' : World) :
  changePassword uid input req w = (w', Ok tt) ->
  (forall s, In s (sessions (w_db w')) -> session_userId s <> uid)
  /\ (forall s, session_userId s <> uid ->
                (In s (sessions (w_db w')) <-> In s (sessions (w_db w))))
  /\ (forall x, In x (users (w_db w')) -> user_id x = uid ->
                user_passwordHash x = hashPassword (newPassword input)).
Proof.
  intros H; apply changePassword_some in H as (u & _ & _ & Hs & Hu).
  rewrite Hs, Hu; simpl; repeat split.
  - intros s Hin; apply filter_In in Hin as [_ Hne].
    now apply negb_true_iff, Nat.eqb_neq in Hne.
  - apply filter_In.
  - intros Hin; apply filter_In; split; [exact Hin|].
    now apply negb_true_iff, Nat.eqb_neq.
  - intros x Hin Hid; apply in_map_iff in Hin as (y & <- & _).
    revert Hid; destruct (user_id y =? uid)%nat eqn:E; [reflexivity|].
    intros Hid; apply Nat.eqb_neq in E; contradiction.
Qed.

(** X18: after a password change the new password opens a session
    and the old one does not: once [changePassword] has returned,
    [login] with the new password succeeds for that user, and [login]
    with the former password is answered Unauthenticated -- given
    password helpers that accept the new password against its hash
    and reject the former one. *)
Theorem changePassword_then_login (input : ChangePasswordInput) (email : string)
        (req req' : option Request) (w : World) (u : User) :
  w_faults w = [] ->
  user_findByEmail (Js.toLowerCase email) (w_db w) = Some u ->
  user_findById (user_id u) (w_db w) = Some u ->
  user_isActive u = true ->
  verifyPassword (currentPassword input) (user_passwordHash u) = true ->
  verifyPassword (newPassword input) (hashPassword (newPassword input)) = true ->
  verifyPassword (currentPassword input) (hashPassword (newPassword input)) = false ->
  exists w1 w2 r,
    changePassword (user_id u) input req w = (w1, Ok tt)
    /\ login (mkLoginInput email (newPassword input)) req' w1 = (w2, Ok r)
    /\ result_userId r = user_id u
    /\ login (mkLoginInput email (currentPassword input)) req' w1
       = (w1, Err (App (UnauthorizedError "Invalid email or password"))).
Proof.
  intros Hf He Hid Ha Hcur Hnew Hold.
  destruct (changePassword_calm (user_id u) input req w u Hf Hid Hcur)
    as (w1 & Hcp & Hf1 & _).
  destruct (changePassword_some _ _ _ _ _ Hcp) as (u0 & _ & _ & _ & Hu).
  set (u' := set_passwordHash (hashPassword (newPassword input)) u).
  assert (Hfind : user_findByEmail (Js.toLowerCase email) (w_db w1) = Some u').
  { unfold user_findByEmail in *; rewrite Hu; simpl.
    rewrite find_map_keep, He; simpl; [now rewrite Nat.eqb_refl|].
    intros a; now destruct (user_id a =? user_id u)%nat. }
  destruct (login_ok (mkLoginInput email (newPassword input)) req' w1 u'
                     Hf1 Hfind Ha Hnew) as (w2 & Hlogin & _).
  exists w1, w2; eexists; split; [exact Hcp|]; split; [exact Hlogin|].
  split; [reflexivity|].
  apply ServiceFacts.login_bad_password.
  unfold login_verification; simpl; rewrite Hfind; simpl.
  rewrite Ha; simpl; now rewrite Hold.
Qed.

(** X19: a refresh touches one session only: the row of the session
    refreshed is replaced by one new row for the same user, carrying
    the CSRF token and the expiry that are returned, and every other
    session row stays. *)
Theorem refresh_rotates_one (sid : nat) (w w' : World) (r : AuthResult) :
  sessionsFresh (w_db w) ->
  refreshSession sid w = (w', Ok (Some r)) ->
  exists old new,
    session_findById sid (w_db w) = Some old
    /\ sessions (w_db w')
       = filter (fun s => negb (session_id s =? sid)%nat) (sessions (w_db w)) ++ [new]
    /\ session_userId new = session_userId old
    /\ session_id new <> sid
    /\ session_csrfToken new = result_csrfToken r
    /\ session_expiresAt new = result_expiresAt r.
Proof.
  intros Hfresh H.
  apply refreshSession_some in H as (s & u & Hs & _ & _ & _ & Hdb & ->).
  destruct (RotationFacts.found_session_id _ _ _ Hs) as [Hin Hid].
  specialize (Hfresh s Hin).
  eexists; eexists; split; [exact Hs|].
  rewrite Hdb; simpl; rewrite filter_app; simpl.
  replace (nextId (w_db w) =? sid)%nat with false
    by (symmetry; apply Nat.eqb_neq; lia).
  simpl; split; [reflexivity|]; simpl; repeat split; lia.
Qed.

End WithCollaborators.

Lemma logout_revokes_witness :
  exists w',
    logout 2 None (calm (Sample.store true) 500 Sample.random) = (w', Ok tt)
    /\ session_findById 2 (w_db w') = None.
Proof.
  destruct (logout_revokes 2 None (calm (Sample.store true) 500 Sample.random) eq_refl)
    as (w' & H & Hgone & _).
  exists w'; split; assumption.
Defined.

Lemma logout_idempotent_witness :
  let w1 := with_faults [true]
                        (fst (logout 2 None (calm (Sample.store true) 500 Sample.random))) in
  logout 2 None w1 = (w1, Ok tt).
Proof.
  exact (logout_idempotent 2 None None [true]
                           (calm (Sample.store true) 500 Sample.random) eq_refl).
Defined.

Lemma changePassword_revokes_sessions_witness :
  Forall (fun s => session_userId s <> 5)
         (sessions
            (w_db (fst (changePassword (C := Sample.collaborators) 5
                          (mkChangePasswordInput "Secret123!" "N3w-Secret") None
                          (calm seeded 500 Sample.random))))).
Proof.
  apply Forall_forall.
  exact (proj1 (changePassword_revokes_sessions
                  (C := Sample.collaborators) 5
                  (mkChangePasswordInput "Secret123!" "N3w-Secret") None
                  (calm seeded 500 Sample.random) _ eq_refl)).
Defined.

Lemma changePassword_then_login_witness :
  exists w1 w2 r,
    changePassword (C := Sample.collaborators) 5
                   (mkChangePasswordInput "Secret123!" "N3w-Secret") None
                   (calm seeded 500 Sample.random) = (w1, Ok tt)
    /\ login (C := Sample.collaborators) (mkLoginInput "A@b.com" "N3w-Secret") None w1
       = (w2, Ok r)
    /\ result_userId r = 5
    /\ login (C := Sample.collaborators) (mkLoginInput "A@b.com" "Secret123!") None w1
       = (w1, Err (App (UnauthorizedError "Invalid email or password"))).
Proof.
  exact (changePassword_then_login
           (C := Sample.collaborators)
           (mkChangePasswordInput "Secret123!" "N3w-Secret") "A@b.com" None None
           (calm seeded 500 Sample.random)
           (mkUser 5 "a@b.com" "h:Secret123!" true None)
           eq_refl eq_refl eq_refl eq_refl eq_refl eq_refl eq_refl).
Defined.

Lemma sessionsFresh_seeded : sessionsFresh seeded.
Proof. intros s [<-|[<-|[]]]; simpl; lia. Qed.

Lemma refresh_rotates_one_witness :
  exists old new,
    session_findById 7 seeded = Some old
    /\ sessions (w_db (fst (refreshSession (C := Sample.collaborators) 7
                                           (calm seeded 500 Sample.random))))
       = filter (fun s => negb (session_id s =? 7)%nat) (sessions seeded) ++ [new]
    /\ session_userId new = session_userId old.
Proof.
  destruct (refresh_rotates_one
              (C := Sample.collaborators) 7 (calm seeded 500 Sample.random)
              _ _ sessionsFresh_seeded eq_refl)
    as (old & new & H1 & H2 & H3 & _).
  exists old, new; repeat split; assumption.
Defined.

Lemma old_session_refused_witness :
  exists msg,
    authenticate (C := Sample.collaborators) (Some "Juuuuusssssss")
                 (at_time 600 (fst (refreshSession (C := Sample.collaborators) 7
                                                   (calm seeded 500 Sample.random))))
    = (at_time 600 (fst (refreshSession (C := Sample.collaborators) 7
                                        (calm seeded 500 Sample.random))),
       Err (App (UnauthorizedError msg))).
Proof.
  apply (RotationFacts.old_session_refused
           (C := Sample.collaborators) 7 (calm seeded 500 Sample.random) _ _ _ _
           sessionsFresh_seeded eq_refl).
  - eapply steps_cons; [apply step_clock | apply steps_refl].
  - intros token p H; injection H as <-; intros H; injection H as <-; reflexivity.
Defined.



End LifecycleFacts.

(* ================================================================== *)
(** * The handlers behind the gates *)

Module RouteFacts.
Import SessionFacts AtomicityFacts CookieFacts AuthnMore LifecycleFacts EvolutionFacts.

Lemma createMany_rows id hours d :
  exists rows,
    operatingHours (operatingHour_createMany id hours d) = operatingHours d ++ rows
    /\ map oh_hour rows = hours
    /\ Forall (fun h => oh_salesInstanceId h = id) rows.
Proof.
  revert d; induction hours as [|h rest IH]; intros d; simpl.
  - exists []; rewrite app_nil_r; repeat split; constructor.
  - destruct (IH (with_nextId (S (nextId d))
                    (with_operatingHours
                       (fun l => l ++ [mkOperatingHour (nextId d) id h]) d)))
      as (rows & Hrows & Hmap & Hall).
    exists (mkOperatingHour (nextId d) id h :: rows).
    rewrite Hrows; simpl; rewrite <- app_assoc; simpl.
    split; [reflexivity|]; split; [now rewrite Hmap | now constructor].
Qed.

Lemma filter_all {A} (f : A -> bool) (l : list A) :
  Forall (fun x => f x = true) l -> filter f l = l.
Proof. induction 1 as [|x l Hx _ IH]; simpl; [reflexivity | now rewrite Hx, IH]. Qed.

Lemma filter_none {A} (f : A -> bool) (l : list A) :
  Forall (fun x => f x = false) l -> filter f l = [].
Proof. induction 1 as [|x l Hx _ IH]; simpl; [reflexivity | now rewrite Hx]. Qed.

Lemma filter_filter_out {A} (f : A -> bool) (l : list A) :
  filter f (filter (fun x => negb (f x)) l) = [].
Proof.
  apply filter_none, Forall_forall; intros x Hx.
  apply filter_In in Hx as [_ Hx]; now apply negb_true_iff.
Qed.

Lemma filter_filter_other {A} (f g : A -> bool) (l : list A) :
  (forall x, f x = true -> g x = false) ->
  filter f (filter (fun x => negb (g x)) l) = filter f l.
Proof.
  intros H; induction l as [|a l IH]; simpl; [reflexivity|].
  destruct (g a) eqn:Eg; simpl.
  - destruct (f a) eqn:Ef; [rewrite (H a Ef) in Eg; discriminate | exact IH].
  - destruct (f a); now rewrite IH.
Qed.

(** What a successful replacement of the hours has done. *)
Lemma replaceHours_some id hours w w' res :
  replaceHours id (Some hours) w = (w', Ok res) ->
  w_db w' = operatingHour_createMany id hours (operatingHour_deleteMany id (w_db w))
  /\ res = res_json (Success (HoursData (operatingHours_of id (w_db w')))) res0.
Proof.
  unfold replaceHours, parse; unfold bind at 1, ret at 1; simpl.
  intros H; apply bind_ok in H as (w1 & [] & Ht & H).
  destruct (transaction_outcome
              [operatingHour_deleteMany id; operatingHour_createMany id hours] w)
    as [[_ Hdb]|[[e He] _]]; [|rewrite Ht in He; discriminate].
  rewrite Ht in Hdb; simpl in Hdb.
  unfold bind, query, ret in H; injection H as <- <-; split; [exact Hdb | reflexivity].
Qed.

(** X20: replacing the operating hours stores exactly what was sent:
    when the handler of [PUT /sales-instances/:id/hours] returns, the
    hours of that sales instance are the submitted ones, in the order
    submitted (none at all for an empty list), they are what the
    response carries, and the hours of every other sales instance
    are as before. *)
Theorem replaceHours_stores_exactly (id : string) (hours : list HourInput)
        (w w' : World) (res : Response) :
  replaceHours id (Some hours) w = (w', Ok res) ->
  map oh_hour (operatingHours_of id (w_db w')) = hours
  /\ res = res_json (Success (HoursData (operatingHours_of id (w_db w')))) res0
  /\ forall id', id' <> id ->
                 operatingHours_of id' (w_db w') = operatingHours_of id' (w_db w).
Proof.
  intros H; apply replaceHours_some in H as [Hdb Hres].
  destruct (createMany_rows id hours (operatingHour_deleteMany id (w_db w)))
    as (rows & Hrows & Hmap & Hall).
  rewrite <- Hdb in Hrows; simpl in Hrows.
  split; [|split; [exact Hres|intros id' Hne]];
    unfold operatingHours_of; rewrite Hrows, filter_app.
  - rewrite filter_filter_out; simpl.
    rewrite filter_all; [exact Hmap|].
    eapply Forall_impl; [|exact Hall]; intros h Hh; simpl in Hh.
    now apply String.eqb_eq.
  - rewrite (filter_none _ rows), app_nil_r.
    + apply filter_filter_other; intros x Hx; apply String.eqb_eq in Hx.
      apply String.eqb_neq; congruence.
    + eapply Forall_impl; [|exact Hall]; intros h Hh; simpl in Hh.
      apply String.eqb_neq; congruence.
Qed.

Lemma replaceHours_stores_exactly_witness :
  map oh_hour
      (operatingHours_of "truck"
         (w_db (fst (replaceHours "truck" (Some [mkHourInput 2 "10:00" "18:00" true;
                                                 mkHourInput 3 "10:00" "14:00" false])
                                  (calm (Sample.store true) 500 Sample.random)))))
  = [mkHourInput 2 "10:00" "18:00" true; mkHourInput 3 "10:00" "14:00" false].
Proof.
  exact (proj1 (replaceHours_stores_exactly
                  "truck" [mkHourInput 2 "10:00" "18:00" true;
                           mkHourInput 3 "10:00" "14:00" false]
                  (calm (Sample.store true) 500 Sample.random) _ _ eq_refl)).
Defined.

Lemma revoked_none_active profileId type t l :
  filter (fun c => (consent_profileId c =? profileId)%nat
                   && (consent_type c =? type)
                   && match consent_revokedAt c with None => true | Some _ => false end)
         (map (fun c =>
                 if (consent_profileId c =? profileId)%nat
                    && (consent_type c =? type)
                    && match consent_revokedAt c with None => true | Some _ => false end
                 then revoke t c else c) l)
  = [].
Proof.
  induction l as [|c l IH]; simpl; [reflexivity|].
  destruct ((consent_profileId c =? profileId)%nat && (consent_type c =? type)
            && match consent_revokedAt c with None => true | Some _ => false end)
    eqn:E; simpl.
  - rewrite andb_false_r; exact IH.
  - rewrite E; exact IH.
Qed.

(** X21: recording a consent leaves exactly one unrevoked consent of
    that type: when the handler of [POST /profile/consents] returns,
    the profile of the user has a single consent of the submitted
    type with [revokedAt] null, the one just created, with the
    submitted [granted] and [version]; it is what the response
    carries. *)
Theorem recordConsent_single_active (userId : nat) (input : ConsentInput)
        (req : option Request) (w w' : World) (res : Response) :
  recordConsent userId (Some input) req w = (w', Ok res) ->
  exists profile consent,
    profile_findByUserId userId (w_db w) = Some profile
    /\ consents_active (profile_id profile) (input_type input) (w_db w') = [consent]
    /\ consent_granted consent = input_granted input
    /\ consent_version consent = input_version input
    /\ res = res_json (Success (ConsentData consent)) res0.
Proof.
  unfold recordConsent, parse, createAuditLog; unfold bind at 1, ret at 1; simpl.
  unfold bind at 1, query at 1; simpl.
  destruct (profile_findByUserId userId (w_db w)) as [p|]; [|discriminate].
  unfold bind at 1, newDate at 1; simpl.
  intros H; apply bind_ok in H as (w1 & [] & H1 & H).
  unfold bind at 1, newDate at 1 in H; simpl in H.
  apply bind_ok in H as (w2 & c & H2 & H).
  apply bind_ok in H as (w3 & [] & H3 & H).
  unfold ret in H; injection H as <- <-.
  apply write_ok in H1 as (Hd1 & _ & Hn1 & _); simpl in Hd1.
  apply write_ok in H2 as (Hd2 & Hc & _); simpl in Hd2, Hc.
  apply write_ok in H3 as (Hd3 & _); simpl in Hd3.
  exists p, c; split; [reflexivity|].
  unfold consents_active; rewrite Hd3; simpl; rewrite Hd2; simpl; rewrite Hd1; simpl.
  rewrite filter_app, revoked_none_active; simpl.
  rewrite Nat.eqb_refl, String.eqb_refl; simpl.
  rewrite Hd1 in Hc; simpl in Hc; subst c; repeat split; reflexivity.
Qed.

Lemma recordConsent_single_active_witness :
  exists profile consent,
    profile_findByUserId 1 (Sample.store true) = Some profile
    /\ consents_active (profile_id profile) "marketing"
         (w_db (fst (recordConsent 1 (Some (mkConsentInput "marketing" false "v2")) None
                                   (calm (Sample.store true) 500 Sample.random))))
       = [consent]
    /\ consent_granted consent = false.
Proof.
  destruct (recordConsent_single_active
              1 (mkConsentInput "marketing" false "v2") None
              (calm (Sample.store true) 500 Sample.random) _ _ eq_refl)
    as (p & c & H1 & H2 & H3 & _).
  exists p, c; repeat split; assumption.
Defined.

Section WithCollaborators.
Context {C : Collaborators}.

Lemma authenticate_err cookie w e :
  snd (authenticate cookie w) = Err e -> authenticate cookie w = (w, Err e).
Proof.
  destruct (authenticate_cases cookie w)
    as [[msg H]|[(t & p & s & _ & _ & _ & _ & H)|(t & p & s & u & H)]].
  - rewrite H; simpl; now intros ->.
  - rewrite H; simpl; now intros ->.
  - decompose [and] H; clear H.
    match goal with H : authenticate _ _ = _ |- _ => rewrite H end; discriminate.
Qed.

Lemma authenticate_ok cookie w w' ctx :
  authenticate cookie w = (w', Ok ctx) -> w' = w.
Proof.
  destruct (authenticate_cases cookie w)
    as [[msg H]|[(t & p & s & _ & _ & _ & _ & H)|(t & p & s & u & H)]];
    try (rewrite H; discriminate).
  decompose [and] H; clear H.
  match goal with H : authenticate _ _ = _ |- _ => rewrite H end.
  now intros E; injection E as <- _.
Qed.

(** X22: a request that fails [authenticate] reaches no handler: on
    each of the protected routes the response is the one the error
    handler renders for what [authenticate] threw, and the store is
    exactly as it was. *)
Theorem unauthenticated_request_changes_nothing
        (cookie csrfHeader : option string) (req : option Request) (w : World)
        (e : Error) (dt : Z) (id : string) (hours : option (list HourInput))
        (consent : option ConsentInput) (passwords : option ChangePasswordInput) :
  snd (authenticate cookie w) = Err e ->
  postLogout cookie req w = (w, errorHandler e res0)
  /\ postChangePassword cookie csrfHeader passwords req w = (w, errorHandler e res0)
  /\ postRefresh cookie dt w = (w, errorHandler e res0)
  /\ putHours cookie id hours w = (w, errorHandler e res0)
  /\ postConsents cookie consent req w = (w, errorHandler e res0).
Proof.
  intros H; apply authenticate_err in H.
  unfold postLogout, postChangePassword, postRefresh, putHours, postConsents, route.
  unfold bind at 1 3 5 6 7.
  repeat split; unfold bind at 1; rewrite H; reflexivity.
Qed.

Lemma no_grant_forbidden u name :
  (forall ra perm, In ra (au_roles u) -> In perm (ra_permissions ra) ->
                   permission_name (perm_permission perm) <> name) ->
  Gate.requirePermission [mkCheck name None None] (Some u)
  = throw (ForbiddenError "Insufficient permissions").
Proof.
  intros H; unfold Gate.requirePermission, Gate.hasPermission; simpl.
  rewrite orb_false_r, GateFacts.existsb_false_forall; [reflexivity|].
  intros ra Hra; unfold Gate.roleSatisfies; simpl.
  apply GateFacts.existsb_false_forall; intros perm Hperm.
  unfold Gate.permMatches; simpl; rewrite andb_true_r.
  apply String.eqb_neq; now apply (H ra perm).
Qed.

(** X23: the permission gate of [PUT /sales-instances/:id/hours]
    stands before the handler: an authenticated identity none of
    whose roles grants [sales_instance.update] is answered 403
    "Insufficient permissions", whatever the body, and the store is
    exactly as it was. *)
Theorem putHours_forbidden (cookie : option string) (id : string)
        (body : option (list HourInput)) (w w' : World) (ctx : AuthContext) :
  authenticate cookie w = (w', Ok ctx) ->
  (forall ra perm, In ra (au_roles (ctx_user ctx)) -> In perm (ra_permissions ra) ->
                   permission_name (perm_permission perm) <> "sales_instance.update") ->
  putHours cookie id body w
  = (w, mkResponse 403 [] (Some (Failure "FORBIDDEN" "Insufficient permissions"))).
Proof.
  intros Ha Hno; pose proof (authenticate_ok _ _ _ _ Ha) as ->.
  unfold putHours, route, bind; rewrite Ha; unfold lift.
  now rewrite (no_grant_forbidden _ _ Hno).
Qed.

Lemma wrong_csrf_forbidden header token :
  header <> Some token ->
  Gate.verifyCsrf header (Some token) = throw (ForbiddenError "Invalid CSRF token").
Proof.
  intros H; unfold Gate.verifyCsrf; destruct header as [h|]; simpl; [|reflexivity].
  destruct (String.eqb_spec h ""); simpl; [reflexivity|].
  destruct (String.eqb_spec h token); simpl; [subst; contradiction | reflexivity].
Qed.

(** X24: a password change needs the CSRF token of the session: when
    the [x-csrf-token] header is missing or is not the token of the
    authenticated session, [POST /auth/change-password] answers 403
    "Invalid CSRF token" without running the handler: the password,
    the sessions and the cookie stay as they were. *)
Theorem changePassword_needs_csrf (cookie csrfHeader : option string)
        (body : option ChangePasswordInput) (req : option Request)
        (w w' : World) (ctx : AuthContext) :
  authenticate cookie w = (w', Ok ctx) ->
  csrfHeader <> Some (ctx_csrfToken ctx) ->
  postChangePassword cookie csrfHeader body req w
  = (w, mkResponse 403 [] (Some (Failure "FORBIDDEN" "Invalid CSRF token"))).
Proof.
  intros Ha Hne; pose proof (authenticate_ok _ _ _ _ Ha) as ->.
  unfold postChangePassword, route, bind; rewrite Ha; unfold lift.
  now rewrite (wrong_csrf_forbidden _ _ Hne).
Qed.

Lemma distinct_ids_same_row l (a b : Session) :
  NoDup (map session_id l) -> In a l -> In b l -> session_id a = session_id b -> a = b.
Proof.
  induction l as [|x l IH]; simpl; [intros _ []|].
  intros Hnd [<-|Ha] [<-|Hb] Hid; inversion Hnd as [|? ? Hnotin Hnd']; subst.
  - reflexivity.
  - exfalso; apply Hnotin; rewrite Hid; now apply in_map.
  - exfalso; apply Hnotin; rewrite <- Hid; now apply in_map.
  - now apply IH.
Qed.

(** The session of an accepted request. *)
Lemma accepted_session cookie w w' ctx :
  authenticate cookie w = (w', Ok ctx) ->
  In (ctx_session ctx) (sessions (w_db w))
  /\ session_userId (ctx_session ctx) = au_id (ctx_user ctx)
  /\ au_sessionId (ctx_user ctx) = session_id (ctx_session ctx)
  /\ ctx_csrfToken ctx = session_csrfToken (ctx_session ctx).
Proof.
  destruct (authenticate_cases cookie w)
    as [[msg H]|[(t & p & s & _ & _ & _ & _ & H)|(t & p & s & u & H)]];
    try (rewrite H; discriminate).
  destruct H as (_ & _ & _ & Hs & _ & Hu & _ & H).
  rewrite H; intros E; injection E as _ <-; simpl.
  apply find_some in Hs as [Hin _]; apply find_some in Hu as [_ Hid].
  apply Nat.eqb_eq in Hid; repeat split; [exact Hin | now symmetry].
Qed.

(** X25: changing the password ends the session that asked for it:
    with the right CSRF token and the right current password, on a
    store that accepts its writes, [POST /auth/change-password]
    answers with the cookie cleared, and from then on, whatever the
    system does, a credential that refers to that session is
    answered Unauthenticated. *)
Theorem password_change_ends_session
        (cookie cookie' : option string) (input : ChangePasswordInput)
        (req : option Request) (w w2 : World) (ctx : AuthContext) (u : User) :
  w_faults w = [] ->
  sessionsFresh (w_db w) ->
  sessionsDistinct (w_db w) ->
  authenticate cookie w = (w, Ok ctx) ->
  ctx_csrfToken ctx <> "" ->
  user_findById (au_id (ctx_user ctx)) (w_db w) = Some u ->
  verifyPassword (currentPassword input) (user_passwordHash u) = true ->
  steps (fst (postChangePassword cookie (Some (ctx_csrfToken ctx)) (Some input) req w))
        w2 ->
  (forall token p, cookie' = Some token -> jwt_verify token (w_now w2) = Some p ->
                   jwt_sessionId p = session_id (ctx_session ctx)) ->
  snd (postChangePassword cookie (Some (ctx_csrfToken ctx)) (Some input) req w)
  = passwordChanged
  /\ exists msg, authenticate cookie' w2 = (w2, Err (App (UnauthorizedError msg))).
Proof.
  intros Hf Hfresh Hdist Ha Htok Hu Hv.
  destruct (accepted_session _ _ _ _ Ha) as (Hin & Howner & _ & _).
  destruct (changePassword_calm (au_id (ctx_user ctx)) input req w u Hf Hu Hv)
    as (w1 & Hcp & _).
  assert (Hroute : postChangePassword cookie (Some (ctx_csrfToken ctx)) (Some input) req w
                   = (w1, passwordChanged)).
  { unfold postChangePassword, route, bind; rewrite Ha; unfold lift, Gate.verifyCsrf.
    simpl; apply String.eqb_neq in Htok; rewrite Htok, String.eqb_refl; simpl.
    unfold ret at 1; fold (bind (A := unit) (B := Response)).
    unfold bind; rewrite Hcp; reflexivity. }
  rewrite Hroute; simpl; intros Hsteps Hrefers; split; [reflexivity|].
  apply authenticate_no_row; intros token p Hc Hver.
  rewrite (Hrefers token p Hc Hver).
  apply (gone_grows _ (w_db w1)); [|now apply steps_grows].
  destruct (changePassword_some _ _ _ _ _ Hcp) as (_ & _ & _ & Hs & _).
  split.
  - unfold session_findById; rewrite Hs; simpl.
    destruct (find _ _) as [s'|] eqn:E; [|reflexivity]; exfalso.
    apply find_some in E as [Hin' Hid]; apply Nat.eqb_eq in Hid.
    apply filter_In in Hin' as [Hin' Hother].
    apply negb_true_iff, Nat.eqb_neq in Hother.
    apply Hother; rewrite <- Howner; f_equal.
    now apply (distinct_ids_same_row (sessions (w_db w))).
  - pose proof (Hfresh _ Hin) as Hlt.
    destruct (Grows_changePassword (au_id (ctx_user ctx)) input req w) as [Hn _].
    rewrite Hcp in Hn; simpl in Hn; lia.
Qed.

(** X26: logging out ends the session: on a store that accepts its
    writes [POST /auth/logout] answers with the cookie cleared, and
    from then on, whatever the system does, a credential that refers
    to that session is answered Unauthenticated. *)
Theorem logout_ends_session
        (cookie cookie' : option string) (req : option Request)
        (w w2 : World) (ctx : AuthContext) :
  w_faults w = [] ->
  sessionsFresh (w_db w) ->
  authenticate cookie w = (w, Ok ctx) ->
  steps (fst (postLogout cookie req w)) w2 ->
  (forall token p, cookie' = Some token -> jwt_verify token (w_now w2) = Some p ->
                   jwt_sessionId p = session_id (ctx_session ctx)) ->
  snd (postLogout cookie req w) = loggedOut
  /\ exists msg, authenticate cookie' w2 = (w2, Err (App (UnauthorizedError msg))).
Proof.
  intros Hf Hfresh Ha.
  destruct (accepted_session _ _ _ _ Ha) as (Hin & _ & Hsid & _).
  destruct (logout_calm (au_sessionId (ctx_user ctx)) req w Hf) as (w1 & Hlo & Hs & _).
  assert (Hroute : postLogout cookie req w = (w1, loggedOut)).
  { unfold postLogout, route, bind; rewrite Ha, Hlo; reflexivity. }
  rewrite Hroute; simpl; intros Hsteps Hrefers; split; [reflexivity|].
  apply authenticate_no_row; intros token p Hc Hver.
  rewrite (Hrefers token p Hc Hver).
  apply (gone_grows _ (w_db w1)); [|now apply steps_grows].
  split.
  - unfold session_findById; rewrite Hs, <- Hsid; apply RotationFacts.find_filter_out.
  - pose proof (Hfresh _ Hin) as Hlt.
    destruct (Grows_logout (au_sessionId (ctx_user ctx)) req w) as [Hn _].
    rewrite Hlo in Hn; simpl in Hn; lia.
Qed.

End WithCollaborators.

Lemma unauthenticated_request_changes_nothing_witness :
  putHours (C := Sample.collaborators) None "truck" (Some [])
           (calm (Sample.store true) 500 Sample.random)
  = (calm (Sample.store true) 500 Sample.random,
     mkResponse 401 [] (Some (Failure "UNAUTHORIZED" "No authentication token provided"))).
Proof.
  exact (proj1 (proj2 (proj2 (proj2
           (unauthenticated_request_changes_nothing
              (C := Sample.collaborators) None None None
              (calm (Sample.store true) 500 Sample.random)
              (App (UnauthorizedError "No authentication token provided"))
              0 "truck" (Some []) None None eq_refl))))).
Defined.

Lemma sessionsDistinct_seeded : sessionsDistinct seeded.
Proof.
  unfold sessionsDistinct; simpl; repeat constructor; simpl; intuition discriminate.
Qed.

Lemma putHours_forbidden_witness :
  putHours (C := Sample.collaborators) (Some "Juuuuusssssss") "truck" None
           (calm seeded 500 Sample.random)
  = (calm seeded 500 Sample.random,
     mkResponse 403 [] (Some (Failure "FORBIDDEN" "Insufficient permissions"))).
Proof.
  apply (putHours_forbidden
           (C := Sample.collaborators) (Some "Juuuuusssssss") "truck" None
           (calm seeded 500 Sample.random) _ _ eq_refl).
  simpl; intros ra perm [<-|[]] [<-|[<-|[]]]; discriminate.
Defined.

Lemma changePassword_needs_csrf_witness :
  postChangePassword (C := Sample.collaborators) (Some "Juuuuusssssss") (Some "rrr")
                     (Some (mkChangePasswordInput "Secret123!" "N3w-Secret")) None
                     (calm seeded 500 Sample.random)
  = (calm seeded 500 Sample.random,
     mkResponse 403 [] (Some (Failure "FORBIDDEN" "Invalid CSRF token"))).
Proof.
  apply (changePassword_needs_csrf
           (C := Sample.collaborators) (Some "Juuuuusssssss") (Some "rrr")
           (Some (mkChangePasswordInput "Secret123!" "N3w-Secret")) None
           (calm seeded 500 Sample.random) _ _ eq_refl).
  discriminate.
Defined.

Lemma password_change_ends_session_witness :
  let w1 := fst (postChangePassword
                   (C := Sample.collaborators) (Some "Juuuuusssssss") (Some "r")
                   (Some (mkChangePasswordInput "Secret123!" "N3w-Secret")) None
                   (calm seeded 500 Sample.random)) in
  exists msg,
    authenticate (C := Sample.collaborators) (Some "Juuuuusssssss") (at_time 600 w1)
    = (at_time 600 w1, Err (App (UnauthorizedError msg))).
Proof.
  intros w1.
  refine (proj2 (password_change_ends_session
                   (C := Sample.collaborators)
                   (Some "Juuuuusssssss") (Some "Juuuuusssssss")
                   (mkChangePasswordInput "Secret123!" "N3w-Secret") None
                   (calm seeded 500 Sample.random) (at_time 600 w1)
                   (mkContext
                      (mkAuthUser 5 "a@b.com" 7
                                  (heldRoles 5 seeded))
                      (mkSession 7 5 "rr" "r" None None 1000) "r")
                   (mkUser 5 "a@b.com" "h:Secret123!" true None)
                   eq_refl sessionsFresh_seeded sessionsDistinct_seeded eq_refl
                   _ eq_refl eq_refl _ _)).
  - discriminate.
  - eapply steps_cons; [apply step_clock | apply steps_refl].
  - intros token p H; injection H as <-; intros H; injection H as <-; reflexivity.
Defined.

Lemma logout_ends_session_witness :
  let w1 := fst (postLogout (C := Sample.collaborators) (Some "Juuuuusssssss") None
                            (calm seeded 500 Sample.random)) in
  exists msg,
    authenticate (C := Sample.collaborators) (Some "Juuuuusssssss") (at_time 600 w1)
    = (at_time 600 w1, Err (App (UnauthorizedError msg))).
Proof.
  intros w1.
  refine (proj2 (logout_ends_session
                   (C := Sample.collaborators)
                   (Some "Juuuuusssssss") (Some "Juuuuusssssss") None
                   (calm seeded 500 Sample.random) (at_time 600 w1)
                   (mkContext
                      (mkAuthUser 5 "a@b.com" 7 (heldRoles 5 seeded))
                      (mkSession 7 5 "rr" "r" None None 1000) "r")
                   eq_refl sessionsFresh_seeded eq_refl _ _)).
  - eapply steps_cons; [apply step_clock | apply steps_refl].
  - intros token p H; injection H as <-; intros H; injection H as <-; reflexivity.
Defined.

End RouteFacts.
